(** * Extension fragments of azuredatastudio: the Flat config editor, the
      Azure Functions binding flow and the Markdown link command

    The sources are adapters over the extension host: every function is a
    sequence of host calls joined by branches, early returns and
    [try]/[catch]/[finally].  A function is embedded as a tree of host calls
    ([Prog]); running the tree against a host ([run]) yields the outcome and
    the trace of the calls made.  The properties below hold for every host. *)

From Stdlib Require Import ZArith String Ascii List Bool Lia.
From Stdlib Require Import DecimalString DecimalNat DecimalFacts.
From stdpp Require Import base option list strings gmap.

Set Warnings "-register-all".

(** ** JavaScript data *)

(** What a message payload, a YAML document or a command option can hold.
    Object fields keep their insertion order.  Numbers are the integers
    (fractions are not needed by any of the embedded code). *)
Inductive Value : Type :=
| VUndefined
| VNull
| VBool (b : bool)
| VNum (n : Z)
| VStr (s : string)
| VArr (items : list Value)
| VObj (fields : list (string * Value)).

(** [if (v)], [!v], [v ? a : b]. *)
Definition truthy (v : Value) : bool :=
  match v with
  | VUndefined | VNull => false
  | VBool b => b
  | VNum n => negb (n =? 0)%Z
  | VStr s => negb (String.eqb s "")
  | VArr _ | VObj _ => true
  end.

(** [s ? a : b] on a string. *)
Definition nonEmpty (s : string) : bool := negb (String.eqb s "").

Fixpoint assoc (k : string) (fields : list (string * Value)) : Value :=
  match fields with
  | [] => VUndefined
  | (k', v) :: rest => if String.eqb k k' then v else assoc k rest
  end.

(** A thrown value: [new Error(message)], a [TypeError], or whatever the
    host rejected with. *)
Record Error : Type := mkError { err_name : string; err_message : string }.

Definition TypeError (message : string) : Error := mkError "TypeError" message.

(** How a call ends. *)
Inductive Outcome (A : Type) : Type :=
| Returned (a : A)
| Thrown (e : Error).
Arguments Returned {A} a.
Arguments Thrown {A} e.

(** ** Host data *)

Record Uri : Type := mkUri {
  uri_scheme : string;
  uri_authority : string;
  uri_path : string;
  uri_query : string;
  uri_fragment : string
}.

(** [uri.with({ path })]. *)
Definition with_path (u : Uri) (p : string) : Uri :=
  mkUri (uri_scheme u) (uri_authority u) p (uri_query u) (uri_fragment u).

Record WorkspaceFolder : Type := mkWorkspaceFolder {
  folder_uri : Uri;
  folder_name : string
}.

(** A [vscode.TextDocument] is a live object: its text and line count are
    read from the host when asked for. *)
Record TextDocument : Type := mkTextDocument {
  doc_uri : Uri;
  languageId : string
}.

Record TextEditor : Type := mkTextEditor {
  editor_document : TextDocument;
  editor_id : nat
}.

Record Range : Type := mkRange {
  startLine : Z; startCharacter : Z; endLine : Z; endCharacter : Z
}.

(** A number computed in JavaScript from a run of decimal digits: an
    integer that a double holds, or [Infinity]. *)
Inductive Number : Type :=
| Finite (z : Z)
| Infinity.

(** A range whose lines are such numbers. *)
Record NumberRange : Type := mkNumberRange {
  number_startLine : Number; number_startCharacter : Z;
  number_endLine : Number; number_endCharacter : Z
}.

(** [edit.replace(uri, range, newText)]: the one entry a [WorkspaceEdit]
    gets in this code. *)
Record WorkspaceEdit : Type := Replace {
  edit_uri : Uri;
  edit_range : Range;
  edit_newText : string
}.

(** [vscode.FileType] is a set of bit flags; [Directory] is 2. *)
Definition FileType : Type := Z.
Definition FileType_Directory : FileType := 2%Z.

(** [vscode.ViewColumn.Active] is -1 and [Beside] is -2. *)
Inductive ViewColumn : Type := Active | Beside.

Definition viewColumnValue (c : ViewColumn) : Value :=
  match c with Active => VNum (-1) | Beside => VNum (-2) end.

(** An argument of [vscode.commands.executeCommand]. *)
Inductive CmdArg : Type :=
| AUri (u : Uri)
| AStr (s : string)
| AVal (v : Value).

(** The page assigned to [webview.html]: the template literal of
    [getHtmlForWebview] is fixed text around seven holes, so a page is the
    values that fill them. *)
Record Html : Type := mkHtml {
  html_cspSource : string;
  html_nonce : string;
  html_styleUri : Uri;
  html_codiconsUri : Uri;
  html_scriptUri : Uri;
  html_workspace : string;
  html_gitrepo : string
}.

(** [IFileFunctionObject]: the promise of the new file and the disposable of
    the file-system watcher behind it, both host handles. *)
Record IFileFunctionObject : Type := mkFileFunctionObject {
  filePromise : nat;
  watcherDisposable : nat
}.

(** [fetch]'s response: [text()] may itself reject. *)
Record Response : Type := mkResponse { response_text : Outcome string }.

Inductive BindingType : Type := input | output.

(** ** Libraries and helpers that are not part of the sources

    The [yaml] package, Node's [path], [vscode.Uri], and the modules of the
    repository that the sources import but that are not among them
    ([../util/file], [../common/utils], [../common/constants]).  All of them
    are pure, and nothing is assumed about what they compute.  [parse] and
    [decodeURIComponent] may throw; the others are taken to return for
    every argument of their type. *)
Class Lib : Type := {
  (* yaml *)
  stringify : Value -> string;
  parse : string -> Outcome Value;
  (* path *)
  path_join : string -> string -> string;
  path_dirname : string -> string;
  extname : string -> string;
  (* vscode.Uri *)
  joinPath : Uri -> list string -> Uri;
  Uri_file : string -> Uri;
  Uri_parse : string -> Uri;
  fsPath : Uri -> string;
  uri_toString : Uri -> string;
  decodeURIComponent : string -> Outcome string;
  (* ../util/file *)
  isMarkdownFile : TextDocument -> bool;
  (* ../common/utils *)
  formatString : string -> string -> string;
  generateQuotedFullName : string -> string -> string;
  (* ../common/constants *)
  azureFunctionsProjectMustBeOpened : string;
  createProject : string;
  learnMore : string;
  sqlBindingsDoc : string;
  timeoutProjectError : string;
  errorNewAzureFunction : string;
  functionNameTitle : string;
  nameMustNotBeEmpty : string;
  timeoutAzureFunctionFileError : string;
  constants_input : string;
  constants_output : string;
  selectBindingType : string;
  sqlConnectionString : string
}.

(** ** The host interface *)

(** Reads of host state.  A read has no effect and does not fail. *)
Inductive Query : Type :=
| WorkspaceFolders                     (* vscode.workspace.workspaceFolders *)
| ExistsSync (p : string)              (* fs.existsSync(p) *)
| ActiveTextEditor                     (* vscode.window.activeTextEditor *)
| GetText (d : TextDocument)           (* d.getText() *)
| LineCount (d : TextDocument)         (* d.lineCount *)
| ExtensionUri                         (* this.context.extensionUri *)
| AsWebviewUri (u : Uri)               (* webview.asWebviewUri(u) *)
| CspSource                            (* webview.cspSource *)
| LinksOpenLocation (resource : Uri).  (* getConfiguration('markdown', resource)
                                          .get('links.openLocation', 'currentGroup') *)

Definition answer (q : Query) : Type :=
  match q with
  | WorkspaceFolders => option (list WorkspaceFolder)
  | ExistsSync _ => bool
  | ActiveTextEditor => option TextEditor
  | GetText _ => string
  | LineCount _ => Z
  | ExtensionUri => Uri
  | AsWebviewUri _ => Uri
  | CspSource => string
  | LinksOpenLocation _ => string
  end.

(** Calls into the host.  A call whose reply type is an [Outcome] may
    throw (or reject, when awaited); the others cannot. *)
Inductive Call : Type :=
(* vscode, fs, fetch *)
| ExecuteCommand (command : string) (args : list CmdArg)
| MkdirSync (p : string) (recursive : bool)
| WriteFileSync (p : string) (data : string)
| OpenTextDocument (u : Uri)
| ShowTextDocument (d : TextDocument) (column : option ViewColumn)
| ApplyEdit (e : WorkspaceEdit)
| SaveDocument (d : TextDocument)
| ShowErrorMessage (message : string) (items : list string)
| ShowInputBox (title value : string)
| ShowQuickPick (items : list (string * BindingType)) (title : string)
| Stat (u : Uri)
| RevealRange (e : TextEditor) (r : NumberRange)
| Glob (patterns : list string) (dot : bool)
| Fetch (url : Value)
| ConsoleLog (s : string)
(* the webview panel of the custom editor *)
| OnDidSaveTextDocument
| OnDidDispose
| OnDidReceiveMessage
| SetWebviewOptions (enableScripts : bool)
| SetWebviewHtml (h : Html)
| PostMessage (m : Value)
| DisposePanel
(* ./lib, ../tableOfContentsProvider, ../common/azureFunctionsUtils, ../common/utils *)
| GetNonce
| TocLookup (d : TextDocument) (fragment : string)
| GetAzureFunctionsExtensionApi
| GetAzureFunctionProject
| WaitForNewHostFile
| WaitForNewFunctionFile (projectFile : string)
| CreateFunction (options : Value)
| AwaitFileOrTimeout (promise : nat) (timeoutMessage : string)
| DisposeWatcher (d : nat)
| GetUniqueFileName (dir table : string)
| AddNugetReferenceToProjectFile (projectFile : string)
| AddConnectionStringToConfig (connectionString projectFile : string)
| GetAzureFunctionService
| AddSqlBinding (type : BindingType)
    (functionFile functionName objectName connectionStringSetting : string)
| OverwriteAzureFunctionMethodBody (functionFile : string).

Definition reply (c : Call) : Type :=
  match c with
  | ExecuteCommand _ _ => Outcome Value
  | MkdirSync _ _ => Outcome unit
  | WriteFileSync _ _ => Outcome unit
  | OpenTextDocument _ => Outcome TextDocument
  | ShowTextDocument _ _ => Outcome TextEditor
  | ApplyEdit _ => Outcome bool
  | SaveDocument _ => Outcome bool
  | ShowErrorMessage _ _ => option string
  | ShowInputBox _ _ => option string
  | ShowQuickPick _ _ => option BindingType
  | Stat _ => Outcome FileType
  | RevealRange _ _ => Outcome unit
  | Glob _ _ => Outcome (list string)
  | Fetch _ => Outcome Response
  | ConsoleLog _ => unit
  | OnDidSaveTextDocument => unit
  | OnDidDispose => unit
  | OnDidReceiveMessage => unit
  | SetWebviewOptions _ => unit
  | SetWebviewHtml _ => unit
  | PostMessage _ => bool
  | DisposePanel => unit
  | GetNonce => string
  | TocLookup _ _ => Outcome (option Z)
  | GetAzureFunctionsExtensionApi => Outcome bool
  | GetAzureFunctionProject => Outcome (option string)
  | WaitForNewHostFile => Outcome IFileFunctionObject
  | WaitForNewFunctionFile _ => Outcome IFileFunctionObject
  | CreateFunction _ => Outcome unit
  | AwaitFileOrTimeout _ _ => Outcome string
  | DisposeWatcher _ => unit
  | GetUniqueFileName _ _ => Outcome string
  | AddNugetReferenceToProjectFile _ => Outcome unit
  | AddConnectionStringToConfig _ _ => Outcome unit
  | GetAzureFunctionService => Outcome unit
  | AddSqlBinding _ _ _ _ _ => Outcome unit
  | OverwriteAzureFunctionMethodBody _ => Outcome unit
  end.

(** ** Programs over the host *)

Inductive Prog (A : Type) : Type :=
| Ret (a : A)
| Throw (e : Error)
| Ask (q : Query) (k : answer q -> Prog A)
| Do (c : Call) (k : reply c -> Prog A).
Arguments Ret {A} a.
Arguments Throw {A} e.
Arguments Ask {A} q k.
Arguments Do {A} c k.

Fixpoint bind {A B : Type} (p : Prog A) (f : A -> Prog B) : Prog B :=
  match p with
  | Ret a => f a
  | Throw e => Throw e
  | Ask q k => Ask q (fun r => bind (k r) f)
  | Do c k => Do c (fun r => bind (k r) f)
  end.

(** [try { p } catch (e) { h e }]. *)
Fixpoint tryCatch {A : Type} (p : Prog A) (h : Error -> Prog A) : Prog A :=
  match p with
  | Ret a => Ret a
  | Throw e => h e
  | Ask q k => Ask q (fun r => tryCatch (k r) h)
  | Do c k => Do c (fun r => tryCatch (k r) h)
  end.

(** [try { p } finally { f }]: [f] runs however [p] ends; when [f] throws,
    its error replaces the outcome of [p]. *)
Fixpoint tryFinally {A : Type} (p : Prog A) (f : Prog unit) : Prog A :=
  match p with
  | Ret a => bind f (fun _ => Ret a)
  | Throw e => bind f (fun _ => Throw e)
  | Ask q k => Ask q (fun r => tryFinally (k r) f)
  | Do c k => Do c (fun r => tryFinally (k r) f)
  end.

Declare Scope prog_scope.
Delimit Scope prog_scope with prog.
Bind Scope prog_scope with Prog.
Notation "x <- p ;; k" := (bind p (fun x => k))
  (at level 100, p at next level, right associativity) : prog_scope.
Notation "p ;; k" := (bind p (fun _ => k))
  (at level 100, right associativity) : prog_scope.
Local Open Scope prog_scope.

Definition ask (q : Query) : Prog (answer q) := Ask q Ret.

(** A call that cannot throw. *)
Definition call (c : Call) : Prog (reply c) := Do c Ret.

Definition lift {A : Type} (o : Outcome A) : Prog A :=
  match o with Returned a => Ret a | Thrown e => Throw e end.


(** Run [p] and hand back how it ended. *)
Definition attempt {A : Type} (p : Prog A) : Prog (Outcome A) :=
  tryCatch (a <- p ;; Ret (Returned a)) (fun e => Ret (Thrown e)).

(** A promise nobody awaits ([f(x);] on an async [f], or [void f(x)]): the
    work is done, a rejection reaches no caller.  The work is taken to run
    to its end before the caller goes on. *)
Definition detach {A : Type} (p : Prog A) : Prog unit :=
  tryCatch (p ;; Ret tt) (fun _ => Ret tt).

(** What a block hands to the rest of its function: go on with [x], or the
    function has executed [return r]. *)
Inductive Flow (R X : Type) : Type :=
| Continue (x : X)
| Return (r : R).
Arguments Continue {R X} x.
Arguments Return {R X} r.

(** ** Running a program *)

Record Host : Type := mkHost {
  state : Type;
  observe : forall q : Query, state -> answer q;
  act : forall c : Call, state -> reply c * state
}.

Inductive Event : Type := Did (c : Call) (r : reply c).

Definition event_call (e : Event) : Call := match e with Did c _ => c end.

Definition calls (tr : list Event) : list Call := map event_call tr.

Record Result (S A : Type) : Type := mkResult {
  outcome : Outcome A;
  final : S;
  trace : list Event
}.
Arguments mkResult {S A} _ _ _.
Arguments outcome {S A} _.
Arguments final {S A} _.
Arguments trace {S A} _.

Fixpoint run {A : Type} (H : Host) (p : Prog A) (s : state H)
  : Result (state H) A :=
  match p with
  | Ret a => mkResult (Returned a) s []
  | Throw e => mkResult (Thrown e) s []
  | Ask q k => run H (k (observe H q s)) s
  | Do c k =>
      let r := fst (act H c s) in
      let rest := run H (k r) (snd (act H c s)) in
      mkResult (outcome rest) (final rest) (Did c r :: trace rest)
  end.

(** ** The host functions, as the sources call them

    An awaited or synchronous call throws what the host throws. *)

Definition executeCommand (command : string) (args : list CmdArg) : Prog Value :=
  Do (ExecuteCommand command args) lift.
Definition mkdirSync (p : string) (recursive : bool) : Prog unit :=
  Do (MkdirSync p recursive) lift.
Definition writeFileSync (p data : string) : Prog unit :=
  Do (WriteFileSync p data) lift.
Definition openTextDocument (u : Uri) : Prog TextDocument :=
  Do (OpenTextDocument u) lift.
Definition showTextDocument (d : TextDocument) (column : option ViewColumn)
  : Prog TextEditor :=
  Do (ShowTextDocument d column) lift.
Definition applyEdit (e : WorkspaceEdit) : Prog bool := Do (ApplyEdit e) lift.
Definition showErrorMessage (message : string) (items : list string)
  : Prog (option string) :=
  call (ShowErrorMessage message items).
Definition stat (u : Uri) : Prog FileType := Do (Stat u) lift.
Definition revealRange (e : TextEditor) (r : NumberRange) : Prog unit :=
  Do (RevealRange e r) lift.
Definition postMessage (m : Value) : Prog bool := call (PostMessage m).
Definition glob (patterns : list string) (dot : bool) : Prog (list string) :=
  Do (Glob patterns dot) lift.
Definition fetch (url : Value) : Prog Response := Do (Fetch url) lift.

(** ** Numbers of JavaScript used by the sources *)

(** The double nearest to the integer [v], for [v] from [-2^53] on: [v]
    itself below [2^53]; above, [v] rounded to 53 significant bits, a tie
    going to the even one, and [Infinity] from [2^1024] on. *)
Definition nearestDouble (v : Z) : Number :=
  if (v <? 2 ^ 53)%Z then Finite v
  else
    let e := (Z.log2 v - 52)%Z in
    let q := Z.shiftr v e in
    let r := (v - Z.shiftl q e)%Z in
    let half := Z.shiftl 1 (e - 1) in
    let q' :=
      if (r <? half)%Z then q
      else if (half <? r)%Z then (q + 1)%Z
      else if Z.even q then q else (q + 1)%Z in
    if (Z.shiftl q' e <? 2 ^ 1024)%Z then Finite (Z.shiftl q' e) else Infinity.

Global Arguments nearestDouble : simpl never.

(** [x - 1] on a number that is not negative. *)
Definition minusOne (x : Number) : Number :=
  match x with
  | Finite v => nearestDouble (v - 1)
  | Infinity => Infinity
  end.

(** [x < 0]. *)
Definition isNegative (x : Number) : bool :=
  match x with
  | Finite v => (v <? 0)%Z
  | Infinity => false
  end.

(** [new vscode.Range(line, 0, line, 0)].  The constructor builds its two
    positions with [new Position(line, 0)], which rejects a negative line
    (extHostTypes.ts, not among the sources). *)
Definition rangeAtLine (line : Number) : Prog NumberRange :=
  if isNegative line
  then Throw (mkError "Error" "Illegal argument: line must be non-negative")
  else Ret (mkNumberRange line 0 line 0).

(** ** String helpers of JavaScript used by the sources *)

(** [s.split(sep)[1]]: the piece between the first and the second occurrence
    of [sep]; [undefined] when [sep] does not occur.  An empty [sep] splits
    into characters. *)
Definition split_1 (s sep : string) : option string :=
  match sep with
  | EmptyString =>
      match s with
      | String _ (String c _) => Some (String c EmptyString)
      | _ => None
      end
  | _ =>
      match String.index 0 sep s with
      | None => None
      | Some i =>
          let from := i + String.length sep in
          let rest := String.substring from (String.length s - from) s in
          match String.index 0 sep rest with
          | None => Some rest
          | Some j => Some (String.substring 0 j rest)
          end
      end
  end.

(** [`${x}`] on a string that may be [undefined]. *)
Definition interpolate (x : option string) : string :=
  match x with Some s => s | None => "undefined" end.

(** The text after the last ['/'] of [s], when there is one. *)
Fixpoint afterLastSlash (s : string) : option string :=
  match s with
  | EmptyString => None
  | String c rest =>
      match afterLastSlash rest with
      | Some t => Some t
      | None => if Ascii.eqb c "/" then Some rest else None
      end
  end.

(** [s.substring(s.lastIndexOf('/') + 1)]. *)
Definition substringAfterLastSlash (s : string) : string :=
  match afterLastSlash s with Some t => t | None => s end.

(** Reading property [k] off [v] in a destructuring pattern or a member
    access: a [TypeError] on [undefined] and [null]; primitives and arrays
    have none of the properties read here. *)
Definition property (v : Value) (k : string) : Prog Value :=
  match v with
  | VUndefined | VNull =>
      Throw (TypeError "Cannot destructure property of undefined or null")
  | VObj fields => Ret (assoc k fields)
  | _ => Ret VUndefined
  end.

(** [{ k = d }]: the default applies to [undefined] only. *)
Definition orDefault (v d : Value) : Value :=
  match v with VUndefined => d | _ => v end.

(** A payload handed to a host function whose parameter is a [string]: the
    host function rejects anything else. *)
Definition requireString (v : Value) : Prog string :=
  match v with
  | VStr s => Ret s
  | _ => Throw (TypeError "The argument must be of type string")
  end.

(** [vscode.workspace.workspaceFolders?.[0].uri]: [undefined] when the
    property is [undefined]; on an empty array the element is [undefined] and
    reading [.uri] off it is a [TypeError]. *)
Definition firstFolderUri : Prog (option Uri) :=
  folders <- ask WorkspaceFolders ;;
  match folders with
  | None => Ret None
  | Some [] => Throw (TypeError "Cannot read properties of undefined (reading 'uri')")
  | Some (folder :: _) => Ret (Some (folder_uri folder))
  end.

(** The options object of the fourth argument of [vscode.openWith]. *)
Definition openWithOptions (onSide : bool) : Value :=
  if onSide
  then VObj [("viewColumn", viewColumnValue Beside); ("preview", VBool false)]
  else VObj [].

(** * extension.ts *)
Module Extension.
Section WithLib.
Context `{Lib}.

(** [showEditor({ isPreview = false, onSide = false })].  The command is
    not awaited. *)
Definition showEditor (isPreview onSide : bool) : Prog unit :=
  workspaceRootUri <- firstFolderUri ;;
  match workspaceRootUri with
  | None => Ret tt
  | Some workspaceRootUri =>
      let flatFileUri := joinPath workspaceRootUri [".github/workflows"; "flat.yml"] in
      detach (executeCommand "vscode.openWith"
                [AUri flatFileUri;
                 AStr (if isPreview then "flat.config" else "default");
                 AVal (openWithOptions onSide)])
  end.

Definition flatStub : Value :=
  VObj [
    ("name", VStr "data");
    ("on", VObj [
       ("schedule", VArr [VObj [("cron", VStr "0 0 * * *")]]);
       ("workflow_dispatch", VObj []);
       ("push", VObj [("paths", VArr [VStr ".github/workflows/flat.yml"])])]);
    ("jobs", VObj [
       ("scheduled", VObj [
          ("runs-on", VStr "ubuntu-latest");
          ("steps", VArr [
             VObj [("name", VStr "Setup deno");
                   ("uses", VStr "denoland/setup-deno@main");
                   ("with", VObj [("deno-version", VStr "v1.10.x")])];
             VObj [("name", VStr "Check out repo");
                   ("uses", VStr "actions/checkout@v2")]])])])].

(** [path.join(rootPath.uri.fsPath, '.github/workflows')] and
    [path.join(workflowsDir, 'flat.yml')]. *)
Definition workflowsDirOf (rootPath : WorkspaceFolder) : string :=
  path_join (fsPath (folder_uri rootPath)) ".github/workflows".
Definition flatYmlPathOf (rootPath : WorkspaceFolder) : string :=
  path_join (workflowsDirOf rootPath) "flat.yml".

Definition initializeFlatYml : Prog unit :=
  folders <- ask WorkspaceFolders ;;
  match folders with
  | None => Ret tt
  | Some folders =>
      match folders with
      | [] => Throw (TypeError "Cannot read properties of undefined (reading 'uri')")
      | rootPath :: _ =>
          let workflowsDir := workflowsDirOf rootPath in
          let flatYmlPath := path_join workflowsDir "flat.yml" in
          present <- ask (ExistsSync flatYmlPath) ;;
          if (present : bool) then showEditor true false
          else
            mkdirSync workflowsDir true ;;
            writeFileSync (path_join workflowsDir "flat.yml") (stringify flatStub) ;;
            showEditor true false
      end
  end.

End WithLib.
End Extension.

(** * flatConfigEditor.ts (src/unnamed/part_000, first file) *)
Module FlatConfigEditor.

(** A message from the webview: [e.type] and [e.data]. *)
Record Message : Type := mkMessage { msg_type : Value; msg_data : Value }.

(** The labels of the [switch (e.type)] in [resolveCustomTextEditor]. *)
Inductive Case : Type :=
| case_openEditor
| case_updateText
| case_storeSecret
| case_refreshFiles
| case_getFileContents
| case_refreshState
| case_getUrlContents
| case_refreshGitDetails
| case_previewFile
| case_default.

(** [switch] compares with [===]: only a string can match a label. *)
Definition switch (type : Value) : Case :=
  match type with
  | VStr s =>
      if String.eqb s "openEditor" then case_openEditor
      else if String.eqb s "updateText" then case_updateText
      else if String.eqb s "storeSecret" then case_storeSecret
      else if String.eqb s "refreshFiles" then case_refreshFiles
      else if String.eqb s "getFileContents" then case_getFileContents
      else if String.eqb s "refreshState" then case_refreshState
      else if String.eqb s "getUrlContents" then case_getUrlContents
      else if String.eqb s "refreshGitDetails" then case_refreshGitDetails
      else if String.eqb s "previewFile" then case_previewFile
      else case_default
  | _ => case_default
  end.

Section WithLib.
Context `{Lib}.

Definition flatFileUriOf (workspaceRootUri : Uri) : Uri :=
  joinPath workspaceRootUri [".github/workflows"; "flat.yml"].

Definition getHtmlForWebview : Prog Html :=
  extensionUri <- ask ExtensionUri ;;
  scriptUri <- ask (AsWebviewUri (joinPath extensionUri ["out/webviews/index.js"])) ;;
  styleVSCodeUri <- ask (AsWebviewUri (joinPath extensionUri ["out/webviews/index.css"])) ;;
  codiconsUri <-
    ask (AsWebviewUri (joinPath extensionUri ["out/webviews/public/codicon.css"])) ;;
  nonce <- call GetNonce ;;
  workspaceRootUri <- firstFolderUri ;;
  match workspaceRootUri with
  | None => Throw (mkError "Error" "No workspace open")
  | Some workspaceRootUri =>
      document <- openTextDocument (flatFileUriOf workspaceRootUri) ;;
      _rawFlatYaml <- ask (GetText document) ;;
      let dirName := substringAfterLastSlash (uri_path workspaceRootUri) in
      let owner := "Microsoft" in
      let name := "azuredatastudio" in
      let gitRepo :=
        if nonEmpty owner && nonEmpty name then owner +:+ "/" +:+ name else "" in
      cspSource <- ask CspSource ;;
      Ret (mkHtml cspSource nonce styleVSCodeUri codiconsUri scriptUri dirName gitRepo)
  end.

(** [document.save()], not awaited. *)
Definition saveDocument (document : TextDocument) : Prog unit :=
  detach (Do (SaveDocument document) lift).

(** [debounce(() => this.saveDocument(document), 300);] builds the debounced
    function and drops it without calling it: nothing is saved. *)
Definition debouncedSave (document : TextDocument) : Prog unit :=
  let _debounced := saveDocument document in
  Ret tt.

Definition serializeWorkflow (data : Value) : string :=
  let serialized := stringify data in
  serialized.

(** The range [new vscode.Range(0, 0, document.lineCount, 0)]. *)
Definition wholeDocument (lineCount : Z) : Range := mkRange 0 0 lineCount 0.

Definition updateTextDocument (_unused : TextDocument) (data : Value) : Prog unit :=
  workspaceRootUri <- firstFolderUri ;;
  match workspaceRootUri with
  | None => Throw (mkError "Error" "No workspace open")
  | Some workspaceRootUri =>
      document <- openTextDocument (flatFileUriOf workspaceRootUri) ;;
      currentText <- ask (GetText document) ;;
      let newText := serializeWorkflow data in
      if String.eqb currentText newText then Ret tt
      else
        lineCount <- ask (LineCount document) ;;
        applyEdit (Replace (doc_uri document) (wholeDocument lineCount) newText) ;;
        debouncedSave document
  end.

(** [showEditor = ({ isPreview = false, onSide = false }) => ...]. *)
Definition showEditor (options : Value) : Prog unit :=
  isPreview <- property options "isPreview" ;;
  onSide <- property options "onSide" ;;
  let isPreview := orDefault isPreview (VBool false) in
  let onSide := orDefault onSide (VBool false) in
  workspaceRootUri <- firstFolderUri ;;
  match workspaceRootUri with
  | None => Ret tt
  | Some workspaceRootUri =>
      detach (executeCommand "vscode.openWith"
                [AUri (flatFileUriOf workspaceRootUri);
                 AStr (if truthy isPreview then "flat.config" else "default");
                 AVal (openWithOptions (truthy onSide))])
  end.

Definition loadFiles : Prog unit :=
  workspaceRootUri <- firstFolderUri ;;
  match workspaceRootUri with
  | None => Ret tt
  | Some workspaceRootUri =>
      let root := uri_path workspaceRootUri in
      files <- glob [root +:+ "/**/*";
                     "!" +:+ root +:+ "/.git";
                     "!" +:+ root +:+ "/.vscode";
                     "!" +:+ root +:+ "/**/node_modules"] true ;;
      let parsedFiles :=
        map (fun file => "." +:+ interpolate (split_1 file root)) files in
      postMessage (VObj [("command", VStr "updateFiles");
                         ("files", VArr (map VStr parsedFiles))]) ;;
      Ret tt
  end.

Definition loadFileContents (filePath : Value) : Prog unit :=
  workspaceRootUri <- firstFolderUri ;;
  match workspaceRootUri with
  | None => Ret tt
  | Some workspaceRootUri =>
      if negb (truthy filePath) then Ret tt
      else
        segment <- requireString filePath ;;
        let fileUri := joinPath workspaceRootUri [segment] in
        document <- openTextDocument fileUri ;;
        rawText <- ask (GetText document) ;;
        postMessage (VObj [("command", VStr "returnFileContents");
                           ("file", filePath);
                           ("contents", VStr rawText)]) ;;
        Ret tt
  end.

Definition loadUrlContents (url : Value) : Prog unit :=
  if negb (truthy url) then Ret tt
  else
    res <- fetch url ;;
    contents <- lift (response_text res) ;;
    postMessage (VObj [("command", VStr "returnUrlContents");
                       ("url", url);
                       ("contents", VStr contents)]) ;;
    Ret tt.

Definition updateWebview (document : TextDocument) : Prog unit :=
  activeTextEditor <- ask ActiveTextEditor ;;
  match activeTextEditor with
  | Some _ =>
      html <- getHtmlForWebview ;;
      call (SetWebviewHtml html)
  | None =>
      rawFlatYaml <- ask (GetText document) ;;
      parsedConfig <- lift (parse rawFlatYaml) ;;
      postMessage (VObj [("command", VStr "updateState"); ("config", parsedConfig)]) ;;
      Ret tt
  end.

Definition updateWebviewState (document : TextDocument) : Prog unit :=
  rawFlatYaml <- ask (GetText document) ;;
  parsedConfig <- lift (parse rawFlatYaml) ;;
  postMessage (VObj [("command", VStr "updateState"); ("config", parsedConfig)]) ;;
  Ret tt.

(** The listener given to [onDidSaveTextDocument]. *)
Definition onDidSaveTextDocument (document e : TextDocument) : Prog unit :=
  if String.eqb (uri_toString (doc_uri e)) (uri_toString (doc_uri document))
  then detach (updateWebview e)
  else Ret tt.

(** The body of one label of the [switch]. *)
Definition handler (document : TextDocument) (c : Case) (data : Value) : Prog unit :=
  match c with
  | case_openEditor => showEditor data
  | case_updateText => detach (updateTextDocument document data)
  | case_storeSecret => call (ConsoleLog "storing secret")
  | case_refreshFiles => detach loadFiles
  | case_getFileContents => detach (loadFileContents data)
  | case_refreshState => detach (updateWebviewState document)
  | case_getUrlContents => detach (loadUrlContents data)
  | case_refreshGitDetails =>
      html <- getHtmlForWebview ;;
      call (SetWebviewHtml html)
  | case_previewFile =>
      workspaceRootUri <- firstFolderUri ;;
      match workspaceRootUri with
      | None => Ret tt
      | Some workspaceRootUri =>
          segment <- requireString data ;;
          let uri := joinPath workspaceRootUri [segment] in
          doc <- openTextDocument uri ;;
          detach (showTextDocument doc None)
      end
  | case_default => Ret tt
  end.

(** The listener given to [webviewPanel.webview.onDidReceiveMessage]. *)
Definition onDidReceiveMessage (document : TextDocument) (e : Message) : Prog unit :=
  handler document (switch (msg_type e)) (msg_data e).

Definition upstreamRemoteMessage : string :=
  "Please make sure you're in a repository with a valid upstream GitHub remote".

Definition resolveCustomTextEditor (document : TextDocument) : Prog unit :=
  call OnDidSaveTextDocument ;;
  call OnDidDispose ;;
  call (SetWebviewOptions true) ;;
  tryCatch
    (html <- getHtmlForWebview ;;
     call (SetWebviewHtml html))
    (fun _ =>
       showErrorMessage upstreamRemoteMessage [] ;;
       executeCommand "workbench.action.revertAndCloseActiveEditor" [] ;;
       call DisposePanel) ;;
  call OnDidReceiveMessage.

End WithLib.
End FlatConfigEditor.

(** * azureFunctionsService.ts (src/unnamed/part_000, second file) *)
Module AzureFunctions.

Definition hostFileName : string := "host.json".

(** [if (projectFile)] on a [string | undefined]. *)
Definition isSet (s : option string) : bool :=
  match s with Some s => nonEmpty s | None => false end.

(** [choice === constant]. *)
Definition picked (choice : option string) (constant : string) : bool :=
  match choice with Some s => String.eqb s constant | None => false end.

Section WithLib.
Context `{Lib}.

Definition getAzureFunctionProject : Prog (option string) :=
  Do GetAzureFunctionProject lift.
Definition createFunction (options : Value) : Prog unit :=
  Do (CreateFunction options) lift.
(** [await Promise.race([promise, utils.timeoutPromise(message)])]. *)
Definition awaitFileOrTimeout (promise : nat) (message : string) : Prog string :=
  Do (AwaitFileOrTimeout promise message) lift.
Definition dispose (o : IFileFunctionObject) : Prog unit :=
  call (DisposeWatcher (watcherDisposable o)).

(** The [try]/[catch]/[finally] that creates a project.  [newHostProjectFile]
    is assigned by the first statement of the [try]; when that statement
    throws the variable is still [undefined] in the [finally], and reading
    [.watcherDisposable] off it is a [TypeError].  The block hands on the
    value [projectFile] has after it. *)
Definition createProjectBlock (projectFile : option string)
  : Prog (Flow unit (option string)) :=
  first <- attempt (Do WaitForNewHostFile lift) ;;
  tryFinally
    (tryCatch
       (newHostProjectFile <- lift first ;;
        createFunction (VObj []) ;;
        hostFile <- awaitFileOrTimeout (filePromise newHostProjectFile)
                      timeoutProjectError ;;
        if nonEmpty hostFile then
          projectFile <- getAzureFunctionProject ;;
          Ret (Continue projectFile)
        else Ret (Continue projectFile))
       (fun error =>
          detach (showErrorMessage
                    (formatString errorNewAzureFunction (err_message error)) []) ;;
          Ret (Return tt)))
    (match first with
     | Returned newHostProjectFile => dispose newHostProjectFile
     | Thrown _ =>
         Throw (TypeError "Cannot read properties of undefined (reading 'watcherDisposable')")
     end).

Definition inputOutputItems : list (string * BindingType) :=
  [(constants_input, input); (constants_output, output)].

(** The [try]/[finally] that creates the function file: it hands on
    [functionFile] and [functionName]. *)
Definition createFunctionBlock (newFunctionFileObject : IFileFunctionObject)
    (projectFile table : string) : Prog (Flow unit (string * string)) :=
  tryFinally
    (uniqueFunctionName <-
       Do (GetUniqueFileName (path_dirname projectFile) table) lift ;;
     functionName <- call (ShowInputBox functionNameTitle uniqueFunctionName) ;;
     match functionName with
     | Some functionName =>
         if nonEmpty functionName then
           createFunction (VObj [("language", VStr "C#");
                                 ("templateId", VStr "HttpTrigger");
                                 ("functionName", VStr functionName);
                                 ("folderPath", VStr projectFile)]) ;;
           functionFile <- awaitFileOrTimeout (filePromise newFunctionFileObject)
                             timeoutAzureFunctionFileError ;;
           Ret (Continue (functionFile, functionName))
         else Ret (Return tt)
     | None => Ret (Return tt)
     end)
    (dispose newFunctionFileObject).

(** The body of [if (projectFile) { ... }].  The last statement calls
    [overwriteAzureFunctionMethodBody] as a plain function, with neither
    [await] nor [void]: what it throws leaves [createAzureFunction]. *)
Definition addBinding (projectFile connectionString schema table : string)
  : Prog unit :=
  newFunctionFileObject <- Do (WaitForNewFunctionFile projectFile) lift ;;
  created <- createFunctionBlock newFunctionFileObject projectFile table ;;
  match created with
  | Return _ => Ret tt
  | Continue (functionFile, functionName) =>
      selectedBinding <- call (ShowQuickPick inputOutputItems selectBindingType) ;;
      match selectedBinding with
      | None => Ret tt
      | Some type =>
          Do (AddNugetReferenceToProjectFile projectFile) lift ;;
          Do (AddConnectionStringToConfig connectionString projectFile) lift ;;
          let objectName := generateQuotedFullName schema table in
          Do GetAzureFunctionService lift ;;
          Do (AddSqlBinding type functionFile functionName objectName
                sqlConnectionString) lift ;;
          Do (OverwriteAzureFunctionMethodBody functionFile) lift
      end
  end.

Definition createAzureFunction (connectionString schema table : string)
  : Prog unit :=
  azureFunctionApi <- Do GetAzureFunctionsExtensionApi lift ;;
  if negb azureFunctionApi then Ret tt
  else
    projectFile <- getAzureFunctionProject ;;
    opened <-
      (if isSet projectFile then Ret (Continue projectFile)
       else
         projectCreate <-
           showErrorMessage azureFunctionsProjectMustBeOpened
             [createProject; learnMore] ;;
         if picked projectCreate learnMore then
           detach (executeCommand "vscode.open" [AUri (Uri_parse sqlBindingsDoc)]) ;;
           Ret (Return tt)
         else if picked projectCreate createProject then
           createProjectBlock projectFile
         else Ret (Continue projectFile)) ;;
    match opened with
    | Return _ => Ret tt
    | Continue projectFile =>
        match projectFile with
        | Some projectFile =>
            if nonEmpty projectFile
            then addBinding projectFile connectionString schema table
            else Ret tt
        | None => Ret tt
        end
    end.

End WithLib.
End AzureFunctions.

(** * openDocumentLink.ts (src/unnamed/part_000, third file) *)
Module OpenDocumentLink.

Record OpenDocumentLinkArgs : Type := mkArgs {
  args_path : string;
  args_fragment : string;
  args_fromResource : string
}.

Definition isDigit (c : ascii) : bool :=
  (48 <=? nat_of_ascii c)%nat && (nat_of_ascii c <=? 57)%nat.

(** The number a run of decimal digits spells; [None] when the run is
    empty or holds another character. *)
Fixpoint digits (acc : Z) (s : string) : option Z :=
  match s with
  | EmptyString => Some acc
  | String c rest =>
      if isDigit c
      then digits (10 * acc + (Z.of_nat (nat_of_ascii c) - 48)) rest
      else None
  end.

(** [fragment.match(/^L(\d+)$/i)] and the number [+match[1]]: the double
    nearest to what the digits spell. *)
Definition lineNumberFragment (fragment : string) : option Number :=
  match fragment with
  | String c (String d rest) =>
      if Ascii.eqb c "L" || Ascii.eqb c "l"
      then option_map nearestDouble (digits 0 (String d rest))
      else None
  | _ => None
  end.

Section WithLib.
Context `{Lib}.

Definition getViewColumn (resource : Uri) : Prog ViewColumn :=
  openLinks <- ask (LinksOpenLocation resource) ;;
  Ret (if String.eqb openLinks "beside" then Beside else Active).

(** [editor] is an object wherever this is called, so [editor && fragment]
    tests the fragment.  The line read off the fragment is a number less
    one, never [NaN], so [!isNaN(line)] holds. *)
Definition tryRevealLine (editor : TextEditor) (fragment : string) : Prog unit :=
  if nonEmpty fragment then
    entry <- Do (TocLookup (editor_document editor) fragment) lift ;;
    match entry with
    | Some line =>
        range <- rangeAtLine (Finite line) ;;
        revealRange editor range
    | None =>
        match lineNumberFragment fragment with
        | Some number =>
            let line := minusOne number in
            range <- rangeAtLine line ;;
            revealRange editor range
        | None => Ret tt
        end
    end
  else Ret tt.

Definition tryOpen (resource : Uri) (args : OpenDocumentLinkArgs)
    (column : ViewColumn) : Prog unit :=
  activeTextEditor <- ask ActiveTextEditor ;;
  let sameDocument :=
    match activeTextEditor with
    | Some editor =>
        if isMarkdownFile (editor_document editor)
           && String.eqb (fsPath (doc_uri (editor_document editor))) (fsPath resource)
        then Some editor else None
    | None => None
    end in
  match sameDocument with
  | Some editor => tryRevealLine editor (args_fragment args)
  | None =>
      type <- stat resource ;;
      if (type =? FileType_Directory)%Z then
        executeCommand "revealInExplorer" [AUri resource] ;;
        Ret tt
      else
        document <- openTextDocument resource ;;
        editor <- showTextDocument document (Some column) ;;
        tryRevealLine editor (args_fragment args)
  end.

(** [targetResource.with({ path: targetResource.path + '.md' })]. *)
Definition withMd (targetResource : Uri) : Uri :=
  with_path targetResource (uri_path targetResource +:+ ".md").

Definition execute (args : OpenDocumentLinkArgs) : Prog unit :=
  from <- lift (decodeURIComponent (args_fromResource args)) ;;
  let fromResource := Uri_parse from in
  targetPath <- lift (decodeURIComponent (args_path args)) ;;
  let targetResource := Uri_file targetPath in
  column <- getViewColumn fromResource ;;
  tryCatch
    (tryOpen targetResource args column)
    (fun _ =>
       if String.eqb (extname (uri_path targetResource)) ""
       then tryOpen (withMd targetResource) args column
       else
         executeCommand "vscode.open"
           [AUri targetResource; AVal (viewColumnValue column)] ;;
         Ret tt).

Definition tryResolveLinkToMarkdownFile (path : string) : Prog (option Uri) :=
  let resource := Uri_file path in
  opened <- attempt (openTextDocument resource) ;;
  match opened with
  | Thrown _ => Ret None
  | Returned document =>
      if isMarkdownFile document then Ret (Some (doc_uri document)) else Ret None
  end.

Definition resolveLinkToMarkdownFile (path : string) : Prog (option Uri) :=
  found <-
    tryCatch
      (standardLink <- tryResolveLinkToMarkdownFile path ;;
       match standardLink with
       | Some standardLink => Ret (Return (Some standardLink))
       | None => Ret (Continue tt)
       end)
      (fun _ => Ret (Continue tt)) ;;
  match found with
  | Return standardLink => Ret standardLink
  | Continue _ =>
      if String.eqb (extname path) ""
      then tryResolveLinkToMarkdownFile (path +:+ ".md")
      else Ret None
  end.

End WithLib.
End OpenDocumentLink.

(** * Reading a run *)

(** The state of host [H] after it has served the calls [cs] from [s], and
    its reply to [c] then. *)
Fixpoint after (H : Host) (s : state H) (cs : list Call) : state H :=
  match cs with
  | [] => s
  | c :: cs => after H (snd (act H c s)) cs
  end.

Definition replyAfter (H : Host) (s : state H) (cs : list Call) (c : Call)
  : reply c :=
  fst (act H c (after H s cs)).

(** [r2] run from where [r1] ended. *)
Definition andThen {S A B : Type} (r1 : Result S A) (r2 : Result S B)
  : Result S B :=
  mkResult (outcome r2) (final r2) (trace r1 ++ trace r2).

(** The edits handed to [vscode.workspace.applyEdit]. *)
Definition appliedEdit (c : Call) : option WorkspaceEdit :=
  match c with ApplyEdit e => Some e | _ => None end.

Definition appliedEdits (cs : list Call) : list WorkspaceEdit :=
  omap appliedEdit cs.

(** Calls that change the disk, save a document, assign the page. *)
Definition writesDisk (c : Call) : bool :=
  match c with MkdirSync _ _ | WriteFileSync _ _ => true | _ => false end.

Definition savesDocument (c : Call) : bool :=
  match c with SaveDocument _ => true | _ => false end.

Definition setsHtml (c : Call) : bool :=
  match c with SetWebviewHtml _ => true | _ => false end.

(** The watcher an event created, and the watcher it disposed. *)
Definition created (e : Event) : option nat :=
  match e with
  | Did c r =>
      match c return reply c -> option nat with
      | WaitForNewHostFile | WaitForNewFunctionFile _ =>
          fun r => match r with
                   | Returned o => Some (watcherDisposable o)
                   | Thrown _ => None
                   end
      | _ => fun _ => None
      end r
  end.

Definition disposed (e : Event) : option nat :=
  match e with
  | Did (DisposeWatcher d) _ => Some d
  | _ => None
  end.

Fixpoint forget (d : nat) (live : list nat) : list nat :=
  match live with
  | [] => []
  | d' :: rest => if Nat.eqb d d' then rest else d' :: forget d rest
  end.

(** The watchers still watching once the events of [tr] have happened,
    [live] being those that watched before. *)
Fixpoint watching (live : list nat) (tr : list Event) : list nat :=
  match tr with
  | [] => live
  | e :: tr =>
      match created e, disposed e with
      | Some d, _ => watching (d :: live) tr
      | None, Some d => watching (forget d live) tr
      | None, None => watching live tr
      end
  end.

(** [v.k] and [Object.keys(v)] on a value that is an object, and the
    items of one that is an array. *)
Definition get (v : Value) (k : string) : Value :=
  match v with VObj fields => assoc k fields | _ => VUndefined end.

Definition keys (v : Value) : list string :=
  match v with VObj fields => map fst fields | _ => [] end.

Definition items (v : Value) : list Value :=
  match v with VArr l => l | _ => [] end.

(** [vscode.commands.executeCommand('vscode.openWith', flatFileUri,
    'flat.config', {})]: opening the preview editor. *)
Definition openPreview `{Lib} (workspaceRootUri : Uri) : Call :=
  ExecuteCommand "vscode.openWith"
    [AUri (joinPath workspaceRootUri [".github/workflows"; "flat.yml"]);
     AStr "flat.config"; AVal (VObj [])].

(** What [tryResolveLinkToMarkdownFile] makes of the reply to its
    [openTextDocument]. *)
Definition resolved `{Lib} (opened : Outcome TextDocument) : option Uri :=
  match opened with
  | Returned document =>
      if isMarkdownFile document then Some (doc_uri document) else None
  | Thrown _ => None
  end.

(** The message types of section 6 of the specification, as it lists them. *)
Definition specMessageTypes : list string :=
  ["openEditor"; "updateText"; "refreshFiles"; "getFileContents";
   "getUrlContents"; "updateState"].

(** The labels the [switch] of [resolveCustomTextEditor] has. *)
Definition handledMessageTypes : list string :=
  ["openEditor"; "updateText"; "storeSecret"; "refreshFiles"; "getFileContents";
   "refreshState"; "getUrlContents"; "refreshGitDetails"; "previewFile"].

(** * A host in memory

    A small host to run the programs on: a disk, a workspace, one user who
    always gives the same answer, and the set of watchers that watch.  It
    serves for concrete runs; the theorems do not depend on it. *)
Module Memory.

Record Mem : Type := mkMem {
  folders : option (list WorkspaceFolder);
  files : gmap string string;          (* path to text *)
  active : option TextEditor;
  project : option string;             (* the Azure Functions project *)
  choice : option string;              (* the button or the text the user gives *)
  createFunctionFails : bool;
  watchers : gset nat;
  nextHandle : nat
}.

Definition setFiles (s : Mem) (f : gmap string string) : Mem :=
  mkMem (folders s) f (active s) (project s) (choice s)
        (createFunctionFails s) (watchers s) (nextHandle s).

Definition setWatchers (s : Mem) (w : gset nat) (next : nat) : Mem :=
  mkMem (folders s) (files s) (active s) (project s) (choice s)
        (createFunctionFails s) w next.

Fixpoint countLines (s : string) : Z :=
  match s with
  | EmptyString => 1
  | String c rest =>
      if Ascii.eqb c (ascii_of_nat 10) then (1 + countLines rest)%Z
      else countLines rest
  end.

Fixpoint endsWith (suffix s : string) : bool :=
  String.eqb s suffix
  || match s with
     | EmptyString => false
     | String _ rest => endsWith suffix rest
     end.

Definition languageOf (p : string) : string :=
  if endsWith ".md" p then "markdown" else "plaintext".

Definition noSuchFile : Error := mkError "Error" "ENOENT".

Definition textOf (s : Mem) (d : TextDocument) : string :=
  default "" (files s !! uri_path (doc_uri d)).

Definition look (q : Query) (s : Mem) : answer q :=
  match q return answer q with
  | WorkspaceFolders => folders s
  | ExistsSync p => bool_decide (is_Some (files s !! p))
  | ActiveTextEditor => active s
  | GetText d => textOf s d
  | LineCount d => countLines (textOf s d)
  | ExtensionUri => mkUri "file" "" "/extension" "" ""
  | AsWebviewUri u =>
      mkUri "vscode-webview" (uri_authority u) (uri_path u) (uri_query u) (uri_fragment u)
  | CspSource => "vscode-webview:"
  | LinksOpenLocation _ => "currentGroup"
  end.

Definition watch (s : Mem) : Outcome IFileFunctionObject * Mem :=
  let promise := nextHandle s in
  let watcher := S (nextHandle s) in
  (Returned (mkFileFunctionObject promise watcher),
   setWatchers s ({[watcher]} ∪ watchers s) (S (S (nextHandle s)))).

Definition serve (c : Call) (s : Mem) : reply c * Mem :=
  match c return reply c * Mem with
  | ExecuteCommand _ _ => (Returned VUndefined, s)
  | MkdirSync _ _ => (Returned tt, s)
  | WriteFileSync p data => (Returned tt, setFiles s (<[p := data]> (files s)))
  | OpenTextDocument u =>
      match files s !! uri_path u with
      | Some _ => (Returned (mkTextDocument u (languageOf (uri_path u))), s)
      | None => (Thrown noSuchFile, s)
      end
  | ShowTextDocument d _ => (Returned (mkTextEditor d 0), s)
  | ApplyEdit e =>
      (Returned true, setFiles s (<[uri_path (edit_uri e) := edit_newText e]> (files s)))
  | SaveDocument _ => (Returned true, s)
  | ShowErrorMessage _ _ => (choice s, s)
  | ShowInputBox _ _ => (choice s, s)
  | ShowQuickPick _ _ => (Some input, s)
  | Stat u =>
      match files s !! uri_path u with
      | Some _ => (Returned 1%Z, s)
      | None => (Thrown noSuchFile, s)
      end
  | RevealRange _ _ => (Returned tt, s)
  | Glob _ _ => (Returned (map fst (map_to_list (files s))), s)
  | Fetch _ => (Returned (mkResponse (Returned "")), s)
  | ConsoleLog _ => (tt, s)
  | OnDidSaveTextDocument => (tt, s)
  | OnDidDispose => (tt, s)
  | OnDidReceiveMessage => (tt, s)
  | SetWebviewOptions _ => (tt, s)
  | SetWebviewHtml _ => (tt, s)
  | PostMessage _ => (true, s)
  | DisposePanel => (tt, s)
  | GetNonce => ("nonce", s)
  | TocLookup _ _ => (Returned None, s)
  | GetAzureFunctionsExtensionApi => (Returned true, s)
  | GetAzureFunctionProject => (Returned (project s), s)
  | WaitForNewHostFile => watch s
  | WaitForNewFunctionFile _ => watch s
  | CreateFunction _ =>
      if createFunctionFails s
      then (Thrown (mkError "Error" "createFunction failed"), s)
      else (Returned tt, s)
  | AwaitFileOrTimeout _ _ => (Returned "/project/new-file", s)
  | DisposeWatcher d => (tt, setWatchers s (watchers s ∖ {[d]}) (nextHandle s))
  | GetUniqueFileName _ table => (Returned table, s)
  | AddNugetReferenceToProjectFile _ => (Returned tt, s)
  | AddConnectionStringToConfig _ _ => (Returned tt, s)
  | GetAzureFunctionService => (Returned tt, s)
  | AddSqlBinding _ _ _ _ _ => (Returned tt, s)
  | OverwriteAzureFunctionMethodBody _ => (Returned tt, s)
  end.

Definition host : Host := mkHost Mem look serve.

(** The text after the last ['.'] of [s], dot included, when the dot is not
    the first character. *)
Fixpoint fromLastDot (s : string) : option string :=
  match s with
  | EmptyString => None
  | String c rest =>
      match fromLastDot rest with
      | Some t => Some t
      | None =>
          match rest with
          | String d _ => if Ascii.eqb d "." then Some rest else None
          | EmptyString => None
          end
      end
  end.

(** The text before the last ['/'] of [s]; ["."] when there is none. *)
Fixpoint beforeLastSlash (s : string) : string :=
  match s with
  | EmptyString => "."
  | String c rest =>
      match afterLastSlash rest with
      | Some _ => String c (beforeLastSlash rest)
      | None => if Ascii.eqb c "/" then "" else "."
      end
  end.

Fixpoint showValue (v : Value) : string :=
  match v with
  | VUndefined | VNull => "null"
  | VBool true => "true"
  | VBool false => "false"
  | VNum _ => "0"
  | VStr s => "'" +:+ s +:+ "'"
  | VArr items =>
      "[" +:+ (fix each (l : list Value) : string :=
                 match l with
                 | [] => ""
                 | [x] => showValue x
                 | x :: rest => showValue x +:+ ", " +:+ each rest
                 end) items +:+ "]"
  | VObj fields =>
      "{" +:+ (fix each (l : list (string * Value)) : string :=
                 match l with
                 | [] => ""
                 | [(k, x)] => k +:+ ": " +:+ showValue x
                 | (k, x) :: rest => k +:+ ": " +:+ showValue x +:+ ", " +:+ each rest
                 end) fields +:+ "}"
  end.

(** Stand-ins for the libraries, good enough to run the programs. *)
Definition lib : Lib := {|
  stringify := fun v => showValue v +:+ String (ascii_of_nat 10) "";
  parse := fun s => Returned (VStr s);
  path_join := fun a b => a +:+ "/" +:+ b;
  path_dirname := beforeLastSlash;
  extname := fun p => default "" (fromLastDot (substringAfterLastSlash p));
  joinPath := fun u segments =>
    with_path u (fold_left (fun a b => a +:+ "/" +:+ b) segments (uri_path u));
  Uri_file := fun p => mkUri "file" "" p "" "";
  Uri_parse := fun s => mkUri "file" "" s "" "";
  fsPath := uri_path;
  uri_toString := fun u => uri_scheme u +:+ "://" +:+ uri_path u;
  decodeURIComponent := fun s => Returned s;
  isMarkdownFile := fun d => String.eqb (languageId d) "markdown";
  formatString := fun format argument => format +:+ argument;
  generateQuotedFullName := fun schema table => "[" +:+ schema +:+ "].[" +:+ table +:+ "]";
  azureFunctionsProjectMustBeOpened := "An Azure Functions project must be opened";
  createProject := "Create Azure Function Project";
  learnMore := "Learn more";
  sqlBindingsDoc := "https://aka.ms/sqlbindings";
  timeoutProjectError := "Timed out waiting for the project";
  errorNewAzureFunction := "Error creating new Azure Function: ";
  functionNameTitle := "Function Name";
  nameMustNotBeEmpty := "Name must not be empty";
  timeoutAzureFunctionFileError := "Timed out waiting for the function file";
  constants_input := "Input";
  constants_output := "Output";
  selectBindingType := "Select type of binding";
  sqlConnectionString := "SqlConnectionString"
|}.

Definition root : WorkspaceFolder :=
  mkWorkspaceFolder (mkUri "file" "" "/repo" "" "") "repo".

(** A host with nothing open and nothing on disk. *)
Definition empty : Mem := mkMem None ∅ None None None false ∅ 0.

(** A workspace that is open and has no folder. *)
Definition noFolders : Mem := mkMem (Some []) ∅ None None None false ∅ 0.

(** A workspace on [/repo] holding the given files. *)
Definition workspace (disk : list (string * string)) : Mem :=
  mkMem (Some [root]) (list_to_map disk) None None None false ∅ 0.

End Memory.

(** * Concrete situations, on the host in memory *)
Module Scenario.
Import Memory.

Definition flatYml : string := "/repo/.github/workflows/flat.yml".

(** A repository without [flat.yml]. *)
Definition freshRepo : Mem := workspace [].

(** A repository whose [flat.yml] holds [text]. *)
Definition repoWith (text : string) : Mem := workspace [(flatYml, text)].

Definition existingFlatYml : Mem := repoWith "name: data".

Definition anyDocument : TextDocument :=
  mkTextDocument (mkUri "file" "" flatYml "" "") "yaml".

(** A repository with [readme.md], and a link to [readme] in [a.md]. *)
Definition docsRepo : Mem := workspace [("/repo/readme.md", "# Read me")].

Definition readmeLink : OpenDocumentLink.OpenDocumentLinkArgs :=
  OpenDocumentLink.mkArgs "/repo/readme" "" "/repo/a.md".

Definition fileUri (p : string) : Uri := mkUri "file" "" p "" "".

(** No project is open, the user asks for one, and creating it fails. *)
Definition failingCreation : Mem :=
  mkMem None ∅ None None (Some "Create Azure Function Project") true ∅ 0.

(** A project is open and the user names the function [fn]. *)
Definition openProject : Mem :=
  mkMem None ∅ None (Some "/p/proj.csproj") (Some "fn") false ∅ 0.

End Scenario.

(** * More of the sources *)

(** ** [OpenDocumentLinkCommand.createCommandUri] (openDocumentLink.ts)

    [encodeURIComponent], [JSON.stringify] and [uri.toString(true)] are
    taken as they come. *)
Module LinkUri.

Definition id : string := "_markdown.openDocumentLink".

Section WithEncoders.
Context `{Lib}.
Variable encodeURIComponent : string -> string.
Variable JSON_stringify : OpenDocumentLink.OpenDocumentLinkArgs -> string.
Variable toStringSkipEncoding : Uri -> string.

(** The object literal that is serialized into the query. *)
Definition commandArgs (fromResource : Uri) (path fragment : string)
  : OpenDocumentLink.OpenDocumentLinkArgs :=
  OpenDocumentLink.mkArgs
    (encodeURIComponent path)
    fragment
    (encodeURIComponent (toStringSkipEncoding fromResource)).

Definition createCommandUri (fromResource : Uri) (path fragment : string) : Uri :=
  Uri_parse
    ("command:" +:+ id +:+ "?" +:+
     encodeURIComponent (JSON_stringify (commandArgs fromResource path fragment))).

End WithEncoders.
End LinkUri.

(** ** More situations *)
Module Situation.
Import Memory.

(** The libraries of [l] with another [parse] and [decodeURIComponent]. *)
Definition withParsers (l : Lib) (parse' : string -> Outcome Value)
    (decode' : string -> Outcome string) : Lib := {|
  stringify := stringify (Lib := l);
  parse := parse';
  path_join := path_join (Lib := l);
  path_dirname := path_dirname (Lib := l);
  extname := extname (Lib := l);
  joinPath := joinPath (Lib := l);
  Uri_file := Uri_file (Lib := l);
  Uri_parse := Uri_parse (Lib := l);
  fsPath := fsPath (Lib := l);
  uri_toString := uri_toString (Lib := l);
  decodeURIComponent := decode';
  isMarkdownFile := isMarkdownFile (Lib := l);
  formatString := formatString (Lib := l);
  generateQuotedFullName := generateQuotedFullName (Lib := l);
  azureFunctionsProjectMustBeOpened := azureFunctionsProjectMustBeOpened (Lib := l);
  createProject := createProject (Lib := l);
  learnMore := learnMore (Lib := l);
  sqlBindingsDoc := sqlBindingsDoc (Lib := l);
  timeoutProjectError := timeoutProjectError (Lib := l);
  errorNewAzureFunction := errorNewAzureFunction (Lib := l);
  functionNameTitle := functionNameTitle (Lib := l);
  nameMustNotBeEmpty := nameMustNotBeEmpty (Lib := l);
  timeoutAzureFunctionFileError := timeoutAzureFunctionFileError (Lib := l);
  constants_input := constants_input (Lib := l);
  constants_output := constants_output (Lib := l);
  selectBindingType := selectBindingType (Lib := l);
  sqlConnectionString := sqlConnectionString (Lib := l)
|}.

Fixpoint hasPercent (s : string) : bool :=
  match s with
  | EmptyString => false
  | String c rest => Ascii.eqb c "%" || hasPercent rest
  end.

(** Libraries whose [parse] rejects every text and whose
    [decodeURIComponent] rejects every text with a percent sign. *)
Definition strict : Lib :=
  withParsers lib
    (fun _ => Thrown (mkError "YAMLSyntaxError" "bad indentation"))
    (fun s => if hasPercent s
              then Thrown (mkError "URIError" "URI malformed")
              else Returned s).

(** A link whose path holds a stray percent sign. *)
Definition percentLink : OpenDocumentLink.OpenDocumentLinkArgs :=
  OpenDocumentLink.mkArgs "/repo/100%" "" "/repo/a.md".

(** The user dismisses every prompt. *)
Definition dismissing : Mem := mkMem None ∅ None None None false ∅ 0.

(** The user picks [Learn more]. *)
Definition learning : Mem := mkMem None ∅ None None (Some "Learn more") false ∅ 0.

(** The host in memory, with the Azure Functions extension not installed. *)
Definition serveBare (c : Call) (s : Mem) : reply c * Mem :=
  match c as c0 return reply c0 * Mem -> reply c0 * Mem with
  | GetAzureFunctionsExtensionApi => fun _ => (Returned false, s)
  | _ => fun served => served
  end (serve c s).

Definition bare : Host := mkHost Mem look serveBare.

End Situation.

(** ** Reading a run of [createAzureFunction] *)
Module Binding.

(** The steps that change the project once a binding has been picked. *)
Inductive Step : Type :=
| AddReference
| AddConnectionString
| GetService
| AddBinding
| OverwriteBody.

Definition step (c : Call) : option Step :=
  match c with
  | AddNugetReferenceToProjectFile _ => Some AddReference
  | AddConnectionStringToConfig _ _ => Some AddConnectionString
  | GetAzureFunctionService => Some GetService
  | AddSqlBinding _ _ _ _ _ => Some AddBinding
  | OverwriteAzureFunctionMethodBody _ => Some OverwriteBody
  | _ => None
  end.

(** What the user typed into an input box, and the binding they picked. *)
Definition nameGiven (e : Event) : option string :=
  match e with
  | Did c r =>
      match c return reply c -> option string with
      | ShowInputBox _ _ => fun r => r
      | _ => fun _ => None
      end r
  end.

Definition bindingPicked (e : Event) : option BindingType :=
  match e with
  | Did c r =>
      match c return reply c -> option BindingType with
      | ShowQuickPick _ _ => fun r => r
      | _ => fun _ => None
      end r
  end.

(** The project [getAzureFunctionProject] found, and the file a watcher
    reported. *)
Definition projectFound (e : Event) : option string :=
  match e with
  | Did c r =>
      match c return reply c -> option string with
      | GetAzureFunctionProject =>
          fun r => match r with Returned p => p | Thrown _ => None end
      | _ => fun _ => None
      end r
  end.

Definition fileReported (e : Event) : option string :=
  match e with
  | Did c r =>
      match c return reply c -> option string with
      | AwaitFileOrTimeout _ _ =>
          fun r => match r with Returned f => Some f | Thrown _ => None end
      | _ => fun _ => None
      end r
  end.

(** The calls that ask the user something. *)
Definition asksUser (c : Call) : bool :=
  match c with
  | ShowErrorMessage _ _ | ShowInputBox _ _ | ShowQuickPick _ _ => true
  | _ => false
  end.

(** What the host rejected a step with, if it did. *)
Definition failure (c : Call) : reply c -> option Error :=
  match c return reply c -> option Error with
  | AddNugetReferenceToProjectFile _ =>
      fun r => match r with Returned _ => None | Thrown e => Some e end
  | AddConnectionStringToConfig _ _ =>
      fun r => match r with Returned _ => None | Thrown e => Some e end
  | GetAzureFunctionService =>
      fun r => match r with Returned _ => None | Thrown e => Some e end
  | AddSqlBinding _ _ _ _ _ =>
      fun r => match r with Returned _ => None | Thrown e => Some e end
  | OverwriteAzureFunctionMethodBody _ =>
      fun r => match r with Returned _ => None | Thrown e => Some e end
  | _ => fun _ => None
  end.

(** The calls of [steps] made one after the other from [s], as far as the
    first that fails and no further, and how that ends. *)
Fixpoint untilFailure (H : Host) (s : state H) (steps : list Call)
  : list Call * Outcome unit :=
  match steps with
  | [] => ([], Returned tt)
  | c :: rest =>
      let (r, s') := act H c s in
      match failure c r with
      | Some e => ([c], Thrown e)
      | None =>
          let (made, ending) := untilFailure H s' rest in
          (c :: made, ending)
      end
  end.

End Binding.

(** ** Characters of a string *)
Fixpoint contains (c : ascii) (s : string) : bool :=
  match s with
  | EmptyString => false
  | String d rest => Ascii.eqb c d || contains c rest
  end.

(** * Properties *)

(** ** How [run] goes through the combinators *)

Lemma run_bind {A B : Type} (H : Host) (p : Prog A) (f : A -> Prog B)
    (s : state H) :
  run H (bind p f) s =
  match outcome (run H p s) with
  | Returned a => andThen (run H p s) (run H (f a) (final (run H p s)))
  | Thrown e => mkResult (Thrown e) (final (run H p s)) (trace (run H p s))
  end.
Proof.
  revert s; induction p as [a | e | q k IH | c k IH]; intros s; cbn.
  - destruct (run H (f a) s); reflexivity.
  - reflexivity.
  - apply IH.
  - rewrite IH.
    destruct (run H (k (fst (act H c s))) (snd (act H c s))) as [[a | e] s' tr];
      reflexivity.
Qed.

Lemma run_tryCatch {A : Type} (H : Host) (p : Prog A) (h : Error -> Prog A)
    (s : state H) :
  run H (tryCatch p h) s =
  match outcome (run H p s) with
  | Returned a => run H p s
  | Thrown e => andThen (run H p s) (run H (h e) (final (run H p s)))
  end.
Proof.
  revert s; induction p as [a | e | q k IH | c k IH]; intros s; cbn.
  - reflexivity.
  - destruct (run H (h e) s); reflexivity.
  - apply IH.
  - rewrite IH.
    destruct (run H (k (fst (act H c s))) (snd (act H c s))) as [[a | e] s' tr];
      reflexivity.
Qed.

Lemma run_tryFinally {A : Type} (H : Host) (p : Prog A) (f : Prog unit)
    (s : state H) :
  run H (tryFinally p f) s =
  let body := run H p s in
  let last := run H f (final body) in
  match outcome last with
  | Returned _ => mkResult (outcome body) (final last) (trace body ++ trace last)
  | Thrown e => mkResult (Thrown e) (final last) (trace body ++ trace last)
  end.
Proof.
  revert s; induction p as [a | e | q k IH | c k IH]; intros s; cbn.
  - rewrite run_bind.
    destruct (run H f s) as [[[] | e] s' tr]; unfold andThen; cbn;
      rewrite ?app_nil_r; reflexivity.
  - rewrite run_bind.
    destruct (run H f s) as [[[] | e'] s' tr]; unfold andThen; cbn;
      rewrite ?app_nil_r; reflexivity.
  - apply IH.
  - rewrite IH; cbn.
    destruct (run H (k (fst (act H c s))) (snd (act H c s))) as [o s' tr]; cbn.
    destruct (run H f s') as [[[] | e] s'' tr']; reflexivity.
Qed.

(** A detached program never throws into its caller. *)
Lemma run_detach {A : Type} (H : Host) (p : Prog A) (s : state H) :
  run H (detach p) s =
  mkResult (Returned tt) (final (run H p s)) (trace (run H p s)).
Proof.
  unfold detach. rewrite run_tryCatch, run_bind.
  destruct (run H p s) as [[a | e] s' tr]; unfold andThen; cbn;
    rewrite ?app_nil_r; reflexivity.
Qed.

Lemma calls_app (tr1 tr2 : list Event) :
  calls (tr1 ++ tr2) = calls tr1 ++ calls tr2.
Proof. apply map_app. Qed.

(** Follow the program through every reply the host can give. *)
Ltac every_reply :=
  repeat (cbn; rewrite ?Nat.eqb_refl;
          match goal with
          | |- context [act ?H ?c ?s] =>
              let r := fresh "r" in
              let s' := fresh "s" in
              destruct (act H c s) as [r s']; cbn; try destruct r
          | |- context [match observe ?H ?q ?s with _ => _ end] =>
              destruct (observe H q s)
          | |- context [if nonEmpty ?x then _ else _] => destruct (nonEmpty x)
          | |- context [if ?b then _ else _] => destruct b
          | |- context [match ?x with _ => _ end] => is_var x; destruct x
          end);
  cbn; rewrite ?Nat.eqb_refl; try reflexivity.

(** Serve the next host call of the goal: name its reply and the state it
    leaves, here and in the hypotheses. *)
Ltac serve_call :=
  match goal with
  | |- context [act ?H ?c ?s] =>
      let r := fresh "r" in
      let s' := fresh "s" in
      let E := fresh "E" in
      destruct (act H c s) as [r s'] eqn:E in *;
      cbn in *
  end.

(** ** The JavaScript helpers, on examples *)

Example split_1_examples :
  split_1 "/repo/a/b.txt" "/repo" = Some "/a/b.txt"
  /\ split_1 "/repo/x/repo/y" "/repo" = Some "/x"
  /\ split_1 "/elsewhere/a" "/repo" = None
  /\ split_1 "abc" "" = Some "b".
Proof. repeat split. Qed.

Example substringAfterLastSlash_examples :
  substringAfterLastSlash "/home/me/repo" = "repo"
  /\ substringAfterLastSlash "repo" = "repo"
  /\ substringAfterLastSlash "/repo/" = "".
Proof. repeat split. Qed.

Example lineNumberFragment_examples :
  OpenDocumentLink.lineNumberFragment "L12" = Some (Finite 12)
  /\ OpenDocumentLink.lineNumberFragment "l7" = Some (Finite 7)
  /\ OpenDocumentLink.lineNumberFragment "L" = None
  /\ OpenDocumentLink.lineNumberFragment "L1a" = None
  /\ OpenDocumentLink.lineNumberFragment "M12" = None.
Proof. repeat split. Qed.

Example truthy_examples :
  truthy (VStr "") = false /\ truthy (VStr "0") = true
  /\ truthy (VNum 0) = false /\ truthy (VArr []) = true
  /\ truthy VNull = false.
Proof. repeat split. Qed.

(** ** extension.ts *)

Lemma run_showEditor `{L : Lib} (H : Host) (s : state H) rootPath rest
    (isPreview onSide : bool) :
  observe H WorkspaceFolders s = Some (rootPath :: rest) ->
  let open :=
    ExecuteCommand "vscode.openWith"
      [AUri (joinPath (folder_uri rootPath) [".github/workflows"; "flat.yml"]);
       AStr (if isPreview then "flat.config" else "default");
       AVal (openWithOptions onSide)] in
  run H (Extension.showEditor isPreview onSide) s =
  mkResult (Returned tt) (after H s [open]) [Did open (replyAfter H s [] open)].
Proof.
  intros Hf open; subst open; unfold replyAfter; cbn. rewrite Hf; cbn.
  serve_call. destruct r; reflexivity.
Qed.




(** On an empty folder array the same entry points do not return: reading
    [.uri] off the missing first folder throws.  No host call is made on
    that path either. *)
Lemma empty_folder_array_throws `{L : Lib} (H : Host) (s : state H) :
  observe H WorkspaceFolders s = Some [] ->
  exists e,
    run H (Extension.showEditor true false) s = mkResult (Thrown e) s []
    /\ run H Extension.initializeFlatYml s = mkResult (Thrown e) s []
    /\ run H FlatConfigEditor.loadFiles s = mkResult (Thrown e) s [].
Proof.
  intros Hempty. eexists.
  repeat split; cbn; rewrite Hempty; reflexivity.
Qed.

Lemma empty_folder_array_throws_witness :
  exists e,
    run Memory.host (Extension.initializeFlatYml (H := Memory.lib))
      Memory.noFolders
    = mkResult (Thrown e) Memory.noFolders [].
Proof.
  destruct (empty_folder_array_throws (L := Memory.lib) Memory.host
              Memory.noFolders eq_refl) as (e & _ & Hinit & _).
  exists e. exact Hinit.
Defined.

(** C9. When [.github/workflows/flat.yml] exists, [initializeFlatYml]
    returns after a single host call, the command that opens the preview
    editor: it creates no directory and writes no file. *)
Theorem initializeFlatYml_keeps_existing `{L : Lib} (H : Host) (s : state H)
    rootPath rest :
  observe H WorkspaceFolders s = Some (rootPath :: rest) ->
  observe H (ExistsSync (Extension.flatYmlPathOf rootPath)) s = true ->
  let r := run H Extension.initializeFlatYml s in
  outcome r = Returned tt
  /\ calls (trace r) = [openPreview (folder_uri rootPath)]
  /\ List.filter writesDisk (calls (trace r)) = [].
Proof.
  intros Hf He r; subst r.
  unfold Extension.flatYmlPathOf, openPreview in *.
  cbn. rewrite Hf; cbn. rewrite He; cbn. rewrite Hf; cbn.
  serve_call. destruct r; repeat split.
Qed.

Lemma initializeFlatYml_keeps_existing_witness :
  calls (trace (run Memory.host (Extension.initializeFlatYml (H := Memory.lib))
                  Scenario.existingFlatYml))
  = [openPreview (H := Memory.lib) (folder_uri Memory.root)].
Proof.
  exact (proj1 (proj2 (initializeFlatYml_keeps_existing (L := Memory.lib)
                         Memory.host Scenario.existingFlatYml Memory.root []
                         eq_refl eq_refl))).
Defined.

(** On the disk in memory, whatever the libraries compute: the files are
    what they were. *)
Lemma initializeFlatYml_keeps_existing_on_disk `{L : Lib} (s : Memory.Mem)
    rootPath rest (text : string) :
  Memory.folders s = Some (rootPath :: rest) ->
  Memory.files s !! Extension.flatYmlPathOf rootPath = Some text ->
  Memory.files (final (run Memory.host Extension.initializeFlatYml s))
  = Memory.files s.
Proof.
  intros Hf He. unfold Extension.flatYmlPathOf in *.
  cbn. rewrite Hf; cbn. rewrite He; cbn. rewrite Hf; cbn.
  reflexivity.
Qed.

(** C3. In a workspace without [.github/workflows/flat.yml],
    [initializeFlatYml] creates the directory and then writes, to
    [.github/workflows/flat.yml] under the first folder, exactly
    [stringify(flatStub)]; the stub has name ['data'], the triggers
    [schedule] (cron ['0 0 * * *']), [workflow_dispatch] and [push] on the
    path of flat.yml, and the single job [scheduled] whose steps use
    setup-deno and checkout.  The editor is shown once the write returned. *)
Theorem initializeFlatYml_writes_stub `{L : Lib} (H : Host) (s : state H)
    rootPath rest :
  observe H WorkspaceFolders s = Some (rootPath :: rest) ->
  observe H (ExistsSync (Extension.flatYmlPathOf rootPath)) s = false ->
  let mkdir := MkdirSync (Extension.workflowsDirOf rootPath) true in
  let write :=
    WriteFileSync (Extension.flatYmlPathOf rootPath)
      (stringify Extension.flatStub) in
  let r := run H Extension.initializeFlatYml s in
  calls (trace r) =
    mkdir ::
    match replyAfter H s [] mkdir with
    | Thrown _ => []
    | Returned _ =>
        write ::
        match replyAfter H s [mkdir] write with
        | Thrown _ => []
        | Returned _ =>
            calls (trace (run H (Extension.showEditor true false)
                            (after H s [mkdir; write])))
        end
    end
  /\ get Extension.flatStub "name" = VStr "data"
  /\ keys (get Extension.flatStub "on") = ["schedule"; "workflow_dispatch"; "push"]
  /\ get (get Extension.flatStub "on") "schedule"
     = VArr [VObj [("cron", VStr "0 0 * * *")]]
  /\ get (get (get Extension.flatStub "on") "push") "paths"
     = VArr [VStr ".github/workflows/flat.yml"]
  /\ keys (get Extension.flatStub "jobs") = ["scheduled"]
  /\ map (fun step => get step "uses")
       (items (get (get (get Extension.flatStub "jobs") "scheduled") "steps"))
     = [VStr "denoland/setup-deno@main"; VStr "actions/checkout@v2"].
Proof.
  intros Hf He mkdir write r; subst mkdir write r.
  split; [| repeat split].
  unfold replyAfter, Extension.flatYmlPathOf in *; cbn.
  rewrite Hf; cbn. rewrite He; cbn.
  serve_call. destruct r as [[] | e]; cbn; [| reflexivity].
  serve_call. destruct r as [[] | e]; cbn; reflexivity.
Qed.

Lemma initializeFlatYml_writes_stub_witness :
  calls (trace (run Memory.host (Extension.initializeFlatYml (H := Memory.lib))
                  Scenario.freshRepo))
  = [MkdirSync "/repo/.github/workflows" true;
     WriteFileSync Scenario.flatYml
       (stringify (Lib := Memory.lib) Extension.flatStub);
     openPreview (H := Memory.lib) (folder_uri Memory.root)].
Proof.
  exact (proj1 (initializeFlatYml_writes_stub (L := Memory.lib)
                  Memory.host Scenario.freshRepo Memory.root []
                  eq_refl eq_refl)).
Defined.

(** On the disk in memory, whatever the libraries compute: afterwards the
    file holds the serialized stub. *)
Lemma initializeFlatYml_writes_stub_on_disk `{L : Lib} (s : Memory.Mem)
    rootPath rest :
  Memory.folders s = Some (rootPath :: rest) ->
  Memory.files s !! Extension.flatYmlPathOf rootPath = None ->
  Memory.files (final (run Memory.host Extension.initializeFlatYml s))
    !! Extension.flatYmlPathOf rootPath
  = Some (stringify Extension.flatStub).
Proof.
  intros Hf He. unfold Extension.flatYmlPathOf in *.
  cbn. rewrite Hf; cbn. rewrite He; cbn. rewrite Hf; cbn.
  apply lookup_insert_eq.
Qed.

(** ** flatConfigEditor.ts *)

(** C1, as the code has it.  An [updateText] message makes the editor open
    [flat.yml] (when a folder is open) and read its text.  When the
    serialization of the incoming data differs from that text, one
    workspace edit is applied: it replaces the range from (0,0) to
    (lineCount,0) with the serialization.  When the two are equal, when no
    folder is open or when the document cannot be opened, no edit is
    applied.  Nothing is thrown to the host. *)
Theorem updateText_rewrites_wholesale `{L : Lib} (H : Host) (s : state H)
    (doc : TextDocument) (data : Value) :
  let r :=
    run H (FlatConfigEditor.onDidReceiveMessage doc
             (FlatConfigEditor.mkMessage (VStr "updateText") data)) s in
  outcome r = Returned tt
  /\ calls (trace r) =
     match observe H WorkspaceFolders s with
     | Some (folder :: _) =>
         let open :=
           OpenTextDocument (FlatConfigEditor.flatFileUriOf (folder_uri folder)) in
         open ::
         match replyAfter H s [] open with
         | Thrown _ => []
         | Returned document =>
             let opened := after H s [open] in
             if String.eqb (observe H (GetText document) opened) (stringify data)
             then []
             else [ApplyEdit
                     (Replace (doc_uri document)
                        (mkRange 0 0 (observe H (LineCount document) opened) 0)
                        (stringify data))]
         end
     | _ => []
     end.
Proof.
  intros r; subst r. unfold replyAfter. cbn.
  destruct (observe H WorkspaceFolders s) as [[| folder rest] |]; cbn;
    try (split; reflexivity).
  serve_call. destruct r as [document | e]; cbn; [| split; reflexivity].
  unfold FlatConfigEditor.serializeWorkflow.
  destruct (String.eqb _ (stringify data)); cbn; [split; reflexivity |].
  serve_call. destruct r; split; reflexivity.
Qed.

(** The document is edited and never saved: [debouncedSave] builds the
    debounced function without calling it, so no [updateText] reaches
    [document.save()]. *)
Lemma updateText_never_saves `{L : Lib} (H : Host) (s : state H)
    (doc : TextDocument) (data : Value) :
  List.filter savesDocument
    (calls (trace (run H (FlatConfigEditor.onDidReceiveMessage doc
                            (FlatConfigEditor.mkMessage (VStr "updateText") data))
                     s)))
  = [].
Proof.
  cbn.
  destruct (observe H WorkspaceFolders s) as [[| folder rest] |]; cbn;
    try reflexivity.
  serve_call. destruct r as [document | e]; cbn; [| reflexivity].
  destruct (String.eqb _ _); cbn; [reflexivity |].
  serve_call. destruct r; reflexivity.
Qed.

(** [refreshFiles] on the host in memory: the paths are posted relative to
    the workspace root. *)
Example loadFiles_posts_relative_paths :
  calls (trace (run Memory.host
                  (FlatConfigEditor.onDidReceiveMessage (H := Memory.lib)
                     Scenario.anyDocument
                     (FlatConfigEditor.mkMessage (VStr "refreshFiles") VUndefined))
                  Scenario.existingFlatYml))
  = [Glob ["/repo/**/*"; "!/repo/.git"; "!/repo/.vscode"; "!/repo/**/node_modules"]
       true;
     PostMessage (VObj [("command", VStr "updateFiles");
                        ("files", VArr [VStr "./.github/workflows/flat.yml"])])].
Proof. reflexivity. Qed.

(** C1 as the specification has it fails: an [updateText] whose data
    serializes to the text the document already has applies no edit; nor
    does one received while no folder is open. *)
Lemma updateText_same_text_no_edit :
  let data := VObj [("name", VStr "data")] in
  let receive :=
    FlatConfigEditor.onDidReceiveMessage (H := Memory.lib) Scenario.anyDocument
      (FlatConfigEditor.mkMessage (VStr "updateText") data) in
  calls (trace (run Memory.host receive
                  (Scenario.repoWith (stringify (Lib := Memory.lib) data))))
  = [OpenTextDocument (mkUri "file" "" Scenario.flatYml "" "")]
  /\ calls (trace (run Memory.host receive Memory.empty)) = [].
Proof. split; reflexivity. Qed.

(** The edit, when the text differs. *)
Example updateText_other_text :
  let data := VObj [("name", VStr "data")] in
  appliedEdits
    (calls (trace (run Memory.host
                     (FlatConfigEditor.onDidReceiveMessage (H := Memory.lib)
                        Scenario.anyDocument
                        (FlatConfigEditor.mkMessage (VStr "updateText") data))
                     Scenario.existingFlatYml)))
  = [Replace (mkUri "file" "" Scenario.flatYml "" "") (mkRange 0 0 1 0)
       (stringify (Lib := Memory.lib) data)].
Proof. reflexivity. Qed.

(** The label a type string reaches, case by case. *)
Lemma switch_handled (t : string) :
  FlatConfigEditor.switch (VStr t) <> FlatConfigEditor.case_default
  <-> In t handledMessageTypes.
Proof.
  unfold FlatConfigEditor.switch, handledMessageTypes.
  split.
  - intros Hne.
    repeat match goal with
           | Hne : context [String.eqb t ?lit] |- _ =>
               revert Hne; destruct (String.eqb_spec t lit) as [-> | _];
               [intros _; cbn; tauto | intros Hne]
           end.
    cbn in Hne. congruence.
  - cbn; intros [<- | [<- | [<- | [<- | [<- | [<- | [<- | [<- | [<- | []]]]]]]]]];
      cbn; discriminate.
Qed.

(** C2, as the code has it.  The types of incoming messages the editor
    handles are exactly [openEditor], [updateText], [storeSecret],
    [refreshFiles], [getFileContents], [refreshState], [getUrlContents],
    [refreshGitDetails] and [previewFile]: a message of one of these types
    runs the handler of its type, a message of any other type -- of type
    [updateState], say -- makes no host call and changes nothing.
    [updateState] is the command of the message the editor posts to the
    webview. *)
Theorem message_dispatch `{L : Lib} :
  (forall type,
     FlatConfigEditor.switch type <> FlatConfigEditor.case_default
     <-> exists t, type = VStr t /\ In t handledMessageTypes)
  /\ (forall (H : Host) (s : state H) doc e,
        FlatConfigEditor.switch (FlatConfigEditor.msg_type e)
        = FlatConfigEditor.case_default ->
        run H (FlatConfigEditor.onDidReceiveMessage doc e) s
        = mkResult (Returned tt) s [])
  /\ (forall doc data,
        let receive t :=
          FlatConfigEditor.onDidReceiveMessage doc
            (FlatConfigEditor.mkMessage (VStr t) data) in
        receive "openEditor" = FlatConfigEditor.showEditor data
        /\ receive "updateText"
           = detach (FlatConfigEditor.updateTextDocument doc data)
        /\ receive "storeSecret" = call (ConsoleLog "storing secret")
        /\ receive "refreshFiles" = detach FlatConfigEditor.loadFiles
        /\ receive "getFileContents"
           = detach (FlatConfigEditor.loadFileContents data)
        /\ receive "refreshState"
           = detach (FlatConfigEditor.updateWebviewState doc)
        /\ receive "getUrlContents"
           = detach (FlatConfigEditor.loadUrlContents data)
        /\ receive "refreshGitDetails"
           = (html <- FlatConfigEditor.getHtmlForWebview ;;
              call (SetWebviewHtml html))
        /\ receive "previewFile"
           = FlatConfigEditor.handler doc FlatConfigEditor.case_previewFile data)
  /\ FlatConfigEditor.switch (VStr "updateState") = FlatConfigEditor.case_default
  /\ (forall (H : Host) (s : state H) doc config,
        parse (observe H (GetText doc) s) = Returned config ->
        calls (trace (run H (FlatConfigEditor.updateWebviewState doc) s))
        = [PostMessage (VObj [("command", VStr "updateState");
                              ("config", config)])]).
Proof.
  split; [| split; [| split; [| split]]].
  - intros type; split.
    + intros Hne. destruct type as [| | | | t | |]; try (cbn in Hne; congruence).
      exists t; split; [reflexivity | now apply switch_handled].
    + intros (t & -> & Hin). now apply switch_handled.
  - intros H s doc e Hdefault.
    unfold FlatConfigEditor.onDidReceiveMessage. rewrite Hdefault. reflexivity.
  - intros doc data receive; subst receive. repeat split.
  - reflexivity.
  - intros H s doc config Hparse. cbn. rewrite Hparse. reflexivity.
Qed.

Lemma message_dispatch_witness :
  run Memory.host
    (FlatConfigEditor.onDidReceiveMessage (H := Memory.lib) Scenario.anyDocument
       (FlatConfigEditor.mkMessage (VStr "updateState") VUndefined))
    Scenario.existingFlatYml
  = mkResult (Returned tt) Scenario.existingFlatYml [].
Proof.
  exact (proj1 (proj2 (message_dispatch (L := Memory.lib)))
           Memory.host Scenario.existingFlatYml Scenario.anyDocument
           (FlatConfigEditor.mkMessage (VStr "updateState") VUndefined) eq_refl).
Defined.

(** C2 as the specification has it fails both ways: [updateState], which it
    lists, reaches no handler, and [refreshState] and [previewFile], which
    it does not list, have an effect. *)
Lemma message_types_not_as_listed :
  let receive type data :=
    FlatConfigEditor.onDidReceiveMessage (H := Memory.lib) Scenario.anyDocument
      (FlatConfigEditor.mkMessage (VStr type) data) in
  In "updateState" specMessageTypes
  /\ FlatConfigEditor.switch (VStr "updateState") = FlatConfigEditor.case_default
  /\ ~ In "refreshState" specMessageTypes
  /\ calls (trace (run Memory.host (receive "refreshState" VUndefined)
                     Scenario.existingFlatYml))
     = [PostMessage (VObj [("command", VStr "updateState");
                           ("config", VStr "name: data")])]
  /\ ~ In "previewFile" specMessageTypes
  /\ calls (trace (run Memory.host
                     (receive "previewFile" (VStr ".github/workflows/flat.yml"))
                     Scenario.existingFlatYml))
     = [OpenTextDocument (mkUri "file" "" Scenario.flatYml "" "");
        ShowTextDocument
          (mkTextDocument (mkUri "file" "" Scenario.flatYml "" "") "plaintext")
          None].
Proof.
  cbn zeta. unfold specMessageTypes.
  split; [cbn; auto 10 |].
  split; [reflexivity |].
  split; [cbn; intuition discriminate |].
  split; [reflexivity |].
  split; [cbn; intuition discriminate | reflexivity].
Qed.

(** ** openDocumentLink.ts *)

Lemma run_tryResolveLinkToMarkdownFile `{L : Lib} (H : Host) (s : state H)
    (path : string) :
  let open := OpenTextDocument (Uri_file path) in
  run H (OpenDocumentLink.tryResolveLinkToMarkdownFile path) s
  = mkResult (Returned (resolved (replyAfter H s [] open)))
      (after H s [open]) [Did open (replyAfter H s [] open)].
Proof.
  intros open; subst open; unfold replyAfter; cbn.
  serve_call. destruct r as [document | e]; cbn; [| reflexivity].
  destruct (isMarkdownFile document); reflexivity.
Qed.

(** C5. [resolveLinkToMarkdownFile] returns for every path and every host;
    it never throws.  When the document opens and is Markdown its uri is
    returned.  Otherwise -- the open failed, or the document is not
    Markdown -- a path without extension is tried once more with [.md]
    appended, and an open that fails there gives [undefined]; a path with
    an extension gives [undefined] at once. *)
Theorem resolveLinkToMarkdownFile_never_throws `{L : Lib} (H : Host)
    (s : state H) (path : string) :
  let open1 := OpenTextDocument (Uri_file path) in
  let open2 := OpenTextDocument (Uri_file (path +:+ ".md")) in
  let r := run H (OpenDocumentLink.resolveLinkToMarkdownFile path) s in
  (exists link, outcome r = Returned link)
  /\ (outcome r, calls (trace r)) =
     match resolved (replyAfter H s [] open1) with
     | Some link => (Returned (Some link), [open1])
     | None =>
         if String.eqb (extname path) ""
         then (Returned (resolved (replyAfter H s [open1] open2)),
               [open1; open2])
         else (Returned None, [open1])
     end.
Proof.
  intros open1 open2 r; subst open1 open2 r.
  unfold OpenDocumentLink.resolveLinkToMarkdownFile.
  rewrite run_bind, run_tryCatch, run_bind, run_tryResolveLinkToMarkdownFile.
  unfold replyAfter; cbn.
  destruct (act H (OpenTextDocument (Uri_file path)) s) as [opened s1]; cbn.
  destruct (resolved opened) as [link |] eqn:Hfirst; cbn.
  - split; [eexists |]; reflexivity.
  - destruct (String.eqb (extname path) ""); cbn.
    + serve_call. destruct r as [document | e]; cbn;
        [destruct (isMarkdownFile document) |];
        (split; [eexists |]; reflexivity).
    + split; [eexists |]; reflexivity.
Qed.

(** The failure of the open is swallowed on the host in memory: no file
    [/repo/missing.txt], no error, [undefined]. *)
Example resolveLinkToMarkdownFile_missing :
  outcome (run Memory.host
             (OpenDocumentLink.resolveLinkToMarkdownFile (H := Memory.lib)
                "/repo/missing.txt")
             Scenario.docsRepo)
  = Returned None.
Proof. reflexivity. Qed.

Lemma run_execute `{L : Lib} (H : Host) (s : state H) args from targetPath :
  decodeURIComponent (OpenDocumentLink.args_fromResource args) = Returned from ->
  decodeURIComponent (OpenDocumentLink.args_path args) = Returned targetPath ->
  let target := Uri_file targetPath in
  let column :=
    if String.eqb (observe H (LinksOpenLocation (Uri_parse from)) s) "beside"
    then Beside else Active in
  run H (OpenDocumentLink.execute args) s
  = run H (tryCatch
             (OpenDocumentLink.tryOpen target args column)
             (fun _ =>
                if String.eqb (extname (uri_path target)) ""
                then OpenDocumentLink.tryOpen (OpenDocumentLink.withMd target)
                       args column
                else
                  executeCommand "vscode.open"
                    [AUri target; AVal (viewColumnValue column)] ;;
                  Ret tt)) s.
Proof.
  intros Hfrom Hpath target column; subst target column.
  unfold OpenDocumentLink.execute. rewrite Hfrom, Hpath. reflexivity.
Qed.

(** C4, as the code has it.  [execute] makes one attempt on the target.
    When it fails and the target path has no extension, [execute] makes one
    more attempt, on the target with [.md] appended to its path, and the
    outcome of that attempt is the outcome of [execute]: it is not
    attempted again.  When it fails and the path has an extension, the
    unmodified target is handed to the [vscode.open] command. *)
Theorem execute_falls_back_once `{L : Lib} (H : Host) (s : state H)
    args from targetPath :
  decodeURIComponent (OpenDocumentLink.args_fromResource args) = Returned from ->
  decodeURIComponent (OpenDocumentLink.args_path args) = Returned targetPath ->
  let target := Uri_file targetPath in
  let column :=
    if String.eqb (observe H (LinksOpenLocation (Uri_parse from)) s) "beside"
    then Beside else Active in
  let first := run H (OpenDocumentLink.tryOpen target args column) s in
  run H (OpenDocumentLink.execute args) s =
  match outcome first with
  | Returned _ => first
  | Thrown _ =>
      andThen first
        (if String.eqb (extname (uri_path target)) ""
         then run H (OpenDocumentLink.tryOpen (OpenDocumentLink.withMd target)
                       args column) (final first)
         else run H (executeCommand "vscode.open"
                       [AUri target; AVal (viewColumnValue column)] ;;
                     Ret tt) (final first))
  end.
Proof.
  intros Hfrom Hpath target column first; subst first.
  rewrite (run_execute H s args from targetPath Hfrom Hpath); cbv zeta.
  fold target column. rewrite run_tryCatch.
  destruct (outcome (run H (OpenDocumentLink.tryOpen target args column) s));
    [reflexivity |].
  destruct (String.eqb (extname (uri_path target)) ""); reflexivity.
Qed.

Lemma execute_falls_back_once_witness :
  let column := Active in
  let first :=
    run Memory.host
      (OpenDocumentLink.tryOpen (H := Memory.lib)
         (Scenario.fileUri "/repo/readme") Scenario.readmeLink column)
      Scenario.docsRepo in
  run Memory.host (OpenDocumentLink.execute (H := Memory.lib) Scenario.readmeLink)
    Scenario.docsRepo
  = andThen first
      (run Memory.host
         (OpenDocumentLink.tryOpen (H := Memory.lib)
            (Scenario.fileUri "/repo/readme.md") Scenario.readmeLink column)
         (final first)).
Proof.
  exact (execute_falls_back_once (L := Memory.lib) Memory.host Scenario.docsRepo
           Scenario.readmeLink "/repo/a.md" "/repo/readme" eq_refl eq_refl).
Defined.

(** C4 as the specification has it fails: the link to [/repo/readme] cannot
    be opened, and [execute] attempts the open again on [/repo/readme.md]. *)
Lemma execute_retries_with_md :
  calls (trace (run Memory.host
                  (OpenDocumentLink.execute (H := Memory.lib) Scenario.readmeLink)
                  Scenario.docsRepo))
  = [Stat (Scenario.fileUri "/repo/readme");
     Stat (Scenario.fileUri "/repo/readme.md");
     OpenTextDocument (Scenario.fileUri "/repo/readme.md");
     ShowTextDocument
       (mkTextDocument (Scenario.fileUri "/repo/readme.md") "markdown")
       (Some Active)]
  /\ outcome (run Memory.host
                (OpenDocumentLink.execute (H := Memory.lib) Scenario.readmeLink)
                Scenario.docsRepo)
     = Returned tt.
Proof. split; reflexivity. Qed.

(** ** azureFunctionsService.ts *)

(** The bookkeeping of [watching]: a watcher that was created and not
    disposed is still watching. *)
Example watching_created (o : IFileFunctionObject) :
  watching [] [Did WaitForNewHostFile (Returned o)] = [watcherDisposable o]
  /\ watching [] [Did WaitForNewHostFile (Returned o);
                  Did (DisposeWatcher (watcherDisposable o)) tt] = [].
Proof. cbn. rewrite Nat.eqb_refl. split; reflexivity. Qed.

Lemma createProjectBlock_disposes `{L : Lib} (H : Host) (s : state H)
    (projectFile : option string) :
  watching []
    (trace (run H (AzureFunctions.createProjectBlock projectFile) s))
  = [].
Proof. unfold AzureFunctions.createProjectBlock. every_reply. Qed.

Lemma createFunctionBlock_disposes `{L : Lib} (H : Host) (s : state H)
    (newFunctionFileObject : IFileFunctionObject) (projectFile table : string)
    (live : list nat) :
  watching (watcherDisposable newFunctionFileObject :: live)
    (trace (run H (AzureFunctions.createFunctionBlock newFunctionFileObject
                     projectFile table) s))
  = live.
Proof. unfold AzureFunctions.createFunctionBlock. every_reply. Qed.

(** C10. Whatever the host replies -- the file arrives, the wait times out,
    the user cancels the input box, a call throws -- no watcher created by
    [createAzureFunction] is left watching when it ends, and each of the two
    blocks has disposed its watcher when it is left: the block that creates
    the project ends with no watcher of its own, the block that creates the
    function file ends with the watcher it was given disposed. *)
Theorem watchers_disposed `{L : Lib} (H : Host) (s : state H)
    (connectionString schema table : string) :
  watching []
    (trace (run H (AzureFunctions.createAzureFunction connectionString schema
                     table) s))
  = []
  /\ (forall projectFile,
        watching []
          (trace (run H (AzureFunctions.createProjectBlock projectFile) s))
        = [])
  /\ (forall newFunctionFileObject projectFile live,
        watching (watcherDisposable newFunctionFileObject :: live)
          (trace (run H (AzureFunctions.createFunctionBlock
                           newFunctionFileObject projectFile table) s))
        = live).
Proof.
  split; [| split; intros].
  - unfold AzureFunctions.createAzureFunction. every_reply.
  - apply createProjectBlock_disposes.
  - apply createFunctionBlock_disposes.
Qed.

(** On the host in memory: the watcher of the function file is created,
    and gone at the end. *)
Example watcher_of_function_file :
  let r :=
    run Memory.host
      (AzureFunctions.createAzureFunction (H := Memory.lib) "cs" "dbo" "t")
      Scenario.openProject in
  In (WaitForNewFunctionFile "/p/proj.csproj") (calls (trace r))
  /\ In (DisposeWatcher 1) (calls (trace r))
  /\ Memory.watchers (final r) = ∅.
Proof. cbn zeta. split; [| split]; [cbn; auto 10 | cbn; auto 10 | reflexivity]. Qed.

(** ** Failures that end in a message box *)

Lemma getHtmlForWebview_sets_nothing `{L : Lib} (H : Host) (s : state H) :
  List.filter setsHtml (calls (trace (run H FlatConfigEditor.getHtmlForWebview s)))
  = [].
Proof. unfold FlatConfigEditor.getHtmlForWebview, firstFolderUri. every_reply. Qed.

Local Arguments FlatConfigEditor.getHtmlForWebview : simpl never.

(** When building the page throws, [resolveCustomTextEditor] shows the
    error message and runs the command that closes the editor; once that
    command returned it disposes the panel, and then still registers the
    message listener.  The page is never assigned. *)
Lemma resolveCustomTextEditor_failure `{L : Lib} (H : Host) (s : state H)
    (doc : TextDocument) (e : Error) :
  let setup := [OnDidSaveTextDocument; OnDidDispose; SetWebviewOptions true] in
  let building := run H FlatConfigEditor.getHtmlForWebview (after H s setup) in
  outcome building = Thrown e ->
  let show := ShowErrorMessage FlatConfigEditor.upstreamRemoteMessage [] in
  let close :=
    ExecuteCommand "workbench.action.revertAndCloseActiveEditor" [] in
  let r := run H (FlatConfigEditor.resolveCustomTextEditor doc) s in
  calls (trace r) =
    setup ++ calls (trace building) ++ show :: close ::
    match replyAfter H (final building) [show] close with
    | Returned _ => [DisposePanel; OnDidReceiveMessage]
    | Thrown _ => []
    end
  /\ List.filter setsHtml (calls (trace r)) = [].
Proof.
  intros setup building Hthrow show close r; subst setup building show close r.
  unfold replyAfter in *; cbn in *.
  match type of Hthrow with
  | outcome (run _ _ ?s3) = _ =>
      pose proof (getHtmlForWebview_sets_nothing H s3) as Hnone
  end.
  rewrite run_bind, run_tryCatch, run_bind, Hthrow; unfold andThen; cbn.
  clear Hthrow; revert Hnone.
  repeat match goal with
         | |- context [act ?H ?c ?s] =>
             let r := fresh "r" in
             destruct (act H c s) as [r ?]; cbn; try destruct r; cbn
         end;
    intros Hnone; unfold calls in *; rewrite !map_app, <- ?app_assoc; cbn;
    (split; [reflexivity | rewrite !List.filter_app, Hnone; reflexivity]).
Qed.

(** When creating the project throws, [createAzureFunction] shows the error
    message, disposes the watcher of the host file and returns. *)
Lemma createAzureFunction_creation_fails `{L : Lib} (H : Host) (s : state H)
    (connectionString schema table : string)
    (projectFile choice : option string) (watcher : IFileFunctionObject)
    (e : Error) :
  let api := GetAzureFunctionsExtensionApi in
  let project := GetAzureFunctionProject in
  let prompt :=
    ShowErrorMessage azureFunctionsProjectMustBeOpened
      [createProject; learnMore] in
  let create := CreateFunction (VObj []) in
  replyAfter H s [] api = Returned true ->
  replyAfter H s [api] project = Returned projectFile ->
  AzureFunctions.isSet projectFile = false ->
  replyAfter H s [api; project] prompt = choice ->
  AzureFunctions.picked choice learnMore = false ->
  AzureFunctions.picked choice createProject = true ->
  replyAfter H s [api; project; prompt] WaitForNewHostFile = Returned watcher ->
  replyAfter H s [api; project; prompt; WaitForNewHostFile] create = Thrown e ->
  let r :=
    run H (AzureFunctions.createAzureFunction connectionString schema table) s in
  outcome r = Returned tt
  /\ calls (trace r) =
     [api; project; prompt; WaitForNewHostFile; create;
      ShowErrorMessage (formatString errorNewAzureFunction (err_message e)) [];
      DisposeWatcher (watcherDisposable watcher)].
Proof.
  intros api project prompt create Hapi Hproject Hunset Hchoice Hmore Hcreate
    Hwatch Hfail r.
  subst api project prompt create r.
  unfold replyAfter in *; cbn in *.
  unfold AzureFunctions.createAzureFunction.
  cbn. rewrite Hapi; cbn. rewrite Hproject; cbn. rewrite Hunset; cbn.
  rewrite Hchoice, Hmore, Hcreate; cbn.
  rewrite Hwatch; cbn. rewrite Hfail; cbn.
  split; reflexivity.
Qed.

(** What the two functions do when the step fails.  When building the
    page throws, [resolveCustomTextEditor] shows the error message, runs
    the command that closes the editor, disposes the panel once that
    command returned, never assigns the page -- and then registers the
    message listener all the same.  When creating the project throws,
    [createAzureFunction] shows the error message, disposes the watcher
    and returns. *)
Theorem failure_shows_message `{L : Lib} (H : Host) (s : state H) :
  (forall (doc : TextDocument) (e : Error),
     let setup := [OnDidSaveTextDocument; OnDidDispose; SetWebviewOptions true] in
     let building :=
       run H FlatConfigEditor.getHtmlForWebview (after H s setup) in
     outcome building = Thrown e ->
     let show := ShowErrorMessage FlatConfigEditor.upstreamRemoteMessage [] in
     let close :=
       ExecuteCommand "workbench.action.revertAndCloseActiveEditor" [] in
     let r := run H (FlatConfigEditor.resolveCustomTextEditor doc) s in
     calls (trace r) =
       setup ++ calls (trace building) ++ show :: close ::
       match replyAfter H (final building) [show] close with
       | Returned _ => [DisposePanel; OnDidReceiveMessage]
       | Thrown _ => []
       end
     /\ List.filter setsHtml (calls (trace r)) = [])
  /\ (forall (connectionString schema table : string)
        (projectFile choice : option string) (watcher : IFileFunctionObject)
        (e : Error),
        let api := GetAzureFunctionsExtensionApi in
        let project := GetAzureFunctionProject in
        let prompt :=
          ShowErrorMessage azureFunctionsProjectMustBeOpened
            [createProject; learnMore] in
        let create := CreateFunction (VObj []) in
        replyAfter H s [] api = Returned true ->
        replyAfter H s [api] project = Returned projectFile ->
        AzureFunctions.isSet projectFile = false ->
        replyAfter H s [api; project] prompt = choice ->
        AzureFunctions.picked choice learnMore = false ->
        AzureFunctions.picked choice createProject = true ->
        replyAfter H s [api; project; prompt] WaitForNewHostFile
        = Returned watcher ->
        replyAfter H s [api; project; prompt; WaitForNewHostFile] create
        = Thrown e ->
        let r :=
          run H (AzureFunctions.createAzureFunction connectionString schema
                   table) s in
        outcome r = Returned tt
        /\ calls (trace r) =
           [api; project; prompt; WaitForNewHostFile; create;
            ShowErrorMessage
              (formatString errorNewAzureFunction (err_message e)) [];
            DisposeWatcher (watcherDisposable watcher)]).
Proof.
  split.
  - intros doc e. apply resolveCustomTextEditor_failure.
  - intros connectionString schema table projectFile choice watcher e.
    exact (createAzureFunction_creation_fails H s connectionString schema
             table projectFile choice watcher e).
Qed.

Lemma failure_shows_message_witness :
  List.filter setsHtml
    (calls (trace (run Memory.host
                     (FlatConfigEditor.resolveCustomTextEditor (H := Memory.lib)
                        Scenario.anyDocument)
                     Memory.empty)))
  = []
  /\ outcome (run Memory.host
                (AzureFunctions.createAzureFunction (H := Memory.lib)
                   "cs" "dbo" "t")
                Scenario.failingCreation)
     = Returned tt.
Proof.
  split.
  - exact (proj2 (proj1 (failure_shows_message (L := Memory.lib)
                           Memory.host Memory.empty)
                    Scenario.anyDocument (mkError "Error" "No workspace open")
                    eq_refl)).
  - exact (proj1 (proj2 (failure_shows_message (L := Memory.lib)
                           Memory.host Scenario.failingCreation)
                    "cs" "dbo" "t" None
                    (Some "Create Azure Function Project")
                    (mkFileFunctionObject 0 1)
                    (mkError "Error" "createFunction failed")
                    eq_refl eq_refl eq_refl eq_refl eq_refl eq_refl eq_refl
                    eq_refl)).
Defined.

(** C7, at the input where the code departs from it.  No folder is open,
    so building the page throws ['No workspace open'].  The handler shows
    the message, runs the close command and disposes the panel -- and then
    goes on past the [try]/[catch] and registers the message listener on
    the panel it has disposed: the operation does not abort. *)
Lemma resolveCustomTextEditor_goes_on_after_failure :
  calls (trace (run Memory.host
                  (FlatConfigEditor.resolveCustomTextEditor (H := Memory.lib)
                     Scenario.anyDocument)
                  Memory.empty))
  = [OnDidSaveTextDocument; OnDidDispose; SetWebviewOptions true; GetNonce;
     ShowErrorMessage FlatConfigEditor.upstreamRemoteMessage [];
     ExecuteCommand "workbench.action.revertAndCloseActiveEditor" [];
     DisposePanel; OnDidReceiveMessage]
  /\ outcome (run Memory.host
                (FlatConfigEditor.getHtmlForWebview (H := Memory.lib))
                Memory.empty)
     = Thrown (mkError "Error" "No workspace open").
Proof. split; reflexivity. Qed.

(** * More of the sources *)

(** ** The handlers of the editor *)

(** The two copies of [showEditor] agree: the editor's one, given an
    options object, is the one of extension.ts at the truth values of the
    fields [isPreview] and [onSide], a missing field counting as [false].
    Given [undefined] or [null] it throws before any host call. *)
Theorem showEditor_copies_agree `{L : Lib} (H : Host) (s : state H) :
  (forall fields,
     FlatConfigEditor.showEditor (VObj fields)
     = Extension.showEditor (truthy (assoc "isPreview" fields))
         (truthy (assoc "onSide" fields)))
  /\ (exists e,
        run H (FlatConfigEditor.showEditor VUndefined) s = mkResult (Thrown e) s []
        /\ run H (FlatConfigEditor.showEditor VNull) s = mkResult (Thrown e) s []).
Proof.
  split.
  - intros fields.
    unfold FlatConfigEditor.showEditor, Extension.showEditor,
      FlatConfigEditor.flatFileUriOf; cbn.
    destruct (assoc "isPreview" fields), (assoc "onSide" fields); reflexivity.
  - eexists; split; reflexivity.
Qed.

(** [loadFileContents] posts the text of the file at [filePath] under the
    first folder, under the same [filePath]; for an empty path it makes no
    host call, and when the file cannot be opened (or the path is no
    string) it posts nothing and throws. *)
Theorem loadFileContents_posts_text `{L : Lib} (H : Host) (s : state H)
    rootPath rest (filePath : Value) :
  observe H WorkspaceFolders s = Some (rootPath :: rest) ->
  let r := run H (FlatConfigEditor.loadFileContents filePath) s in
  (truthy filePath = false -> r = mkResult (Returned tt) s [])
  /\ (forall p, filePath = VStr p -> p <> "" ->
      let open := OpenTextDocument (joinPath (folder_uri rootPath) [p]) in
      match replyAfter H s [] open with
      | Returned document =>
          outcome r = Returned tt
          /\ calls (trace r) =
             [open;
              PostMessage
                (VObj [("command", VStr "returnFileContents");
                       ("file", VStr p);
                       ("contents",
                        VStr (observe H (GetText document) (after H s [open])))])]
      | Thrown e => outcome r = Thrown e /\ calls (trace r) = [open]
      end)
  /\ (truthy filePath = true -> (forall p, filePath <> VStr p) ->
      exists e, r = mkResult (Thrown e) s []).
Proof.
  intros Hf r; subst r. unfold replyAfter.
  split; [| split].
  - intros Hfalsy. cbn. rewrite Hf; cbn. rewrite Hfalsy. reflexivity.
  - intros p -> Hp. cbn. rewrite Hf; cbn.
    destruct (String.eqb_spec p "") as [-> | _]; [contradiction |]. cbn.
    serve_call. destruct r as [document | e]; cbn; split; reflexivity.
  - intros Htruthy Hnot. cbn. rewrite Hf; cbn. rewrite Htruthy; cbn.
    destruct filePath; try (eexists; reflexivity).
    exfalso. eapply Hnot. reflexivity.
Qed.

Lemma loadFileContents_posts_text_witness :
  calls (trace (run Memory.host
                  (FlatConfigEditor.loadFileContents (H := Memory.lib)
                     (VStr ".github/workflows/flat.yml"))
                  Scenario.existingFlatYml))
  = [OpenTextDocument (Scenario.fileUri Scenario.flatYml);
     PostMessage
       (VObj [("command", VStr "returnFileContents");
              ("file", VStr ".github/workflows/flat.yml");
              ("contents", VStr "name: data")])].
Proof.
  exact (proj2 (proj1 (proj2 (loadFileContents_posts_text (L := Memory.lib)
                                Memory.host Scenario.existingFlatYml Memory.root []
                                (VStr ".github/workflows/flat.yml") eq_refl))
                  ".github/workflows/flat.yml" eq_refl
                  ltac:(discriminate))).
Defined.

(** [loadUrlContents] makes no host call for a missing or empty url.  For
    a url it fetches it and posts the text of the response under the same
    url; when the fetch fails or the body cannot be read it posts nothing
    and throws that error.  A payload that is no string is handed to
    [fetch] as it is, and posted back as it is. *)
Theorem loadUrlContents_posts_body (H : Host) (s : state H) (url : Value) :
  let r := run H (FlatConfigEditor.loadUrlContents url) s in
  (truthy url = false -> r = mkResult (Returned tt) s [])
  /\ (forall address, url = VStr address -> address <> "" ->
      match replyAfter H s [] (Fetch (VStr address)) with
      | Returned res =>
          match response_text res with
          | Returned contents =>
              outcome r = Returned tt
              /\ calls (trace r) =
                 [Fetch (VStr address);
                  PostMessage
                    (VObj [("command", VStr "returnUrlContents");
                           ("url", VStr address);
                           ("contents", VStr contents)])]
          | Thrown e =>
              outcome r = Thrown e /\ calls (trace r) = [Fetch (VStr address)]
          end
      | Thrown e =>
          outcome r = Thrown e /\ calls (trace r) = [Fetch (VStr address)]
      end)
  /\ (truthy url = true ->
      match replyAfter H s [] (Fetch url) with
      | Returned res =>
          match response_text res with
          | Returned contents =>
              outcome r = Returned tt
              /\ calls (trace r) =
                 [Fetch url;
                  PostMessage
                    (VObj [("command", VStr "returnUrlContents");
                           ("url", url);
                           ("contents", VStr contents)])]
          | Thrown e => outcome r = Thrown e /\ calls (trace r) = [Fetch url]
          end
      | Thrown e => outcome r = Thrown e /\ calls (trace r) = [Fetch url]
      end).
Proof.
  intros r; subst r. unfold replyAfter.
  assert (Htruthy : truthy url = true ->
            match fst (act H (Fetch url) (after H s [])) with
            | Returned res =>
                match response_text res with
                | Returned contents =>
                    outcome (run H (FlatConfigEditor.loadUrlContents url) s)
                    = Returned tt
                    /\ calls (trace (run H (FlatConfigEditor.loadUrlContents url) s))
                       = [Fetch url;
                          PostMessage
                            (VObj [("command", VStr "returnUrlContents");
                                   ("url", url);
                                   ("contents", VStr contents)])]
                | Thrown e =>
                    outcome (run H (FlatConfigEditor.loadUrlContents url) s)
                    = Thrown e
                    /\ calls (trace (run H (FlatConfigEditor.loadUrlContents url) s))
                       = [Fetch url]
                end
            | Thrown e =>
                outcome (run H (FlatConfigEditor.loadUrlContents url) s) = Thrown e
                /\ calls (trace (run H (FlatConfigEditor.loadUrlContents url) s))
                   = [Fetch url]
            end).
  { intros Htrue. unfold FlatConfigEditor.loadUrlContents. rewrite Htrue; cbn.
    serve_call. destruct r as [[[contents | e]] | e]; cbn; split; reflexivity. }
  split; [| split].
  - intros Hfalsy. cbn. unfold FlatConfigEditor.loadUrlContents.
    rewrite Hfalsy. reflexivity.
  - intros address -> Haddress. apply Htruthy. cbn.
    destruct (String.eqb_spec address "") as [-> | _]; [contradiction |].
    reflexivity.
  - exact Htruthy.
Qed.

Lemma loadUrlContents_posts_body_witness :
  run Memory.host (FlatConfigEditor.loadUrlContents VUndefined) Memory.empty
  = mkResult (Returned tt) Memory.empty []
  /\ calls (trace (run Memory.host
                     (FlatConfigEditor.loadUrlContents (VStr "https://example.org"))
                     Memory.empty))
     = [Fetch (VStr "https://example.org");
        PostMessage
          (VObj [("command", VStr "returnUrlContents");
                 ("url", VStr "https://example.org");
                 ("contents", VStr "")])].
Proof.
  split.
  - exact (proj1 (loadUrlContents_posts_body Memory.host Memory.empty VUndefined)
             eq_refl).
  - exact (proj2 (proj1 (proj2 (loadUrlContents_posts_body Memory.host
                                  Memory.empty (VStr "https://example.org")))
                    "https://example.org" eq_refl ltac:(discriminate))).
Defined.

(** The handler of a message settles without error whenever the work of
    its label is not awaited: for the types [updateText], [storeSecret],
    [refreshFiles], [getFileContents], [refreshState], [getUrlContents]
    and for every type without a label, whatever the payload and whatever
    the host replies or throws. *)
Theorem unawaited_handlers_never_reject `{L : Lib} (H : Host) (s : state H)
    (doc : TextDocument) (e : FlatConfigEditor.Message) :
  FlatConfigEditor.msg_type e <> VStr "openEditor" ->
  FlatConfigEditor.msg_type e <> VStr "refreshGitDetails" ->
  FlatConfigEditor.msg_type e <> VStr "previewFile" ->
  outcome (run H (FlatConfigEditor.onDidReceiveMessage doc e) s) = Returned tt.
Proof.
  intros Hopen Hgit Hpreview.
  unfold FlatConfigEditor.onDidReceiveMessage.
  destruct e as [type data]; cbn in *.
  destruct (FlatConfigEditor.switch type) eqn:Hcase;
    unfold FlatConfigEditor.handler; rewrite ?run_detach; try reflexivity;
    try (cbn; destruct (act H (ConsoleLog _) s) as [[] ?]; reflexivity);
    exfalso;
    (destruct type as [| | | | t | |]; try discriminate;
     revert Hcase; unfold FlatConfigEditor.switch;
     repeat match goal with
            | |- context [String.eqb t ?lit] =>
                destruct (String.eqb_spec t lit) as [-> | _];
                [intros Hcase; first [discriminate Hcase | congruence] |]
            end;
     intros Hcase; discriminate Hcase).
Qed.

Lemma unawaited_handlers_never_reject_witness :
  outcome (run Memory.host
             (FlatConfigEditor.onDidReceiveMessage (H := Memory.lib)
                Scenario.anyDocument
                (FlatConfigEditor.mkMessage (VStr "getFileContents")
                   (VStr "no/such/file")))
             Scenario.existingFlatYml)
  = Returned tt.
Proof.
  exact (unawaited_handlers_never_reject (L := Memory.lib) Memory.host
           Scenario.existingFlatYml Scenario.anyDocument
           (FlatConfigEditor.mkMessage (VStr "getFileContents")
              (VStr "no/such/file"))
           ltac:(discriminate) ltac:(discriminate) ltac:(discriminate)).
Defined.

(** The three awaited labels do reject: [openEditor] without a payload, and
    [previewFile] for a file that is not there. *)
Example awaited_handlers_reject :
  (exists e,
     outcome (run Memory.host
                (FlatConfigEditor.onDidReceiveMessage (H := Memory.lib)
                   Scenario.anyDocument
                   (FlatConfigEditor.mkMessage (VStr "openEditor") VUndefined))
                Scenario.existingFlatYml)
     = Thrown e)
  /\ outcome (run Memory.host
                (FlatConfigEditor.onDidReceiveMessage (H := Memory.lib)
                   Scenario.anyDocument
                   (FlatConfigEditor.mkMessage (VStr "previewFile")
                      (VStr "no/such/file")))
                Scenario.existingFlatYml)
     = Thrown Memory.noSuchFile.
Proof. split; [eexists |]; reflexivity. Qed.

(** No message makes the editor touch the disk or save a document, and
    only [updateText] makes it edit one: for every message of another type
    no workspace edit is applied. *)
Theorem messages_leave_files_alone `{L : Lib} (H : Host) (s : state H)
    (doc : TextDocument) (e : FlatConfigEditor.Message) :
  let cs := calls (trace (run H (FlatConfigEditor.onDidReceiveMessage doc e) s)) in
  List.filter writesDisk cs = []
  /\ List.filter savesDocument cs = []
  /\ (appliedEdits cs = []
      \/ FlatConfigEditor.switch (FlatConfigEditor.msg_type e)
         = FlatConfigEditor.case_updateText).
Proof.
  intros cs; subst cs.
  unfold FlatConfigEditor.onDidReceiveMessage.
  destruct e as [type data]; cbn [FlatConfigEditor.msg_type FlatConfigEditor.msg_data].
  destruct (FlatConfigEditor.switch type);
    unfold FlatConfigEditor.handler, FlatConfigEditor.showEditor,
      FlatConfigEditor.updateTextDocument, FlatConfigEditor.loadFiles,
      FlatConfigEditor.loadFileContents, FlatConfigEditor.loadUrlContents,
      FlatConfigEditor.updateWebviewState, FlatConfigEditor.getHtmlForWebview,
      firstFolderUri, property, requireString;
    try (destruct data);
    repeat (every_reply;
            try match goal with
                | |- context [lift ?x] => destruct x; cbn
                | |- context [match ?x with _ => _ end] => destruct x; cbn
                end);
    auto.
Qed.

(** Building the page fails exactly when no folder is open or [flat.yml]
    cannot be opened.  The page that is
    built names the last segment of the workspace path as its workspace,
    carries the nonce the host drew, and names [Microsoft/azuredatastudio]
    as its repository whatever the workspace is. *)
Theorem getHtmlForWebview_needs_flat_yml `{L : Lib} (H : Host) (s : state H) :
  let r := run H FlatConfigEditor.getHtmlForWebview s in
  let drawn := after H s [GetNonce] in
  match observe H WorkspaceFolders drawn with
  | None =>
      outcome r = Thrown (mkError "Error" "No workspace open")
      /\ calls (trace r) = [GetNonce]
  | Some [] => (exists e, outcome r = Thrown e) /\ calls (trace r) = [GetNonce]
  | Some (folder :: _) =>
      let open :=
        OpenTextDocument (FlatConfigEditor.flatFileUriOf (folder_uri folder)) in
      calls (trace r) = [GetNonce; open]
      /\ match replyAfter H s [GetNonce] open with
         | Thrown e => outcome r = Thrown e
         | Returned _ =>
             exists html,
               outcome r = Returned html
               /\ html_workspace html
                  = substringAfterLastSlash (uri_path (folder_uri folder))
               /\ html_gitrepo html = "Microsoft/azuredatastudio"
               /\ html_nonce html = replyAfter H s [] GetNonce
         end
  end.
Proof.
  intros r drawn; subst r drawn.
  unfold FlatConfigEditor.getHtmlForWebview, firstFolderUri, replyAfter; cbn.
  destruct (act H GetNonce s) as [nonce s1]; cbn.
  destruct (observe H WorkspaceFolders s1) as [[| folder rest] |]; cbn.
  - split; [eexists |]; reflexivity.
  - destruct (act H (OpenTextDocument _) s1) as [[document | e] s2]; cbn.
    + split; [reflexivity |]. eexists. repeat split.
    + split; reflexivity.
  - split; reflexivity.
Qed.


(** When the page can be built, [resolveCustomTextEditor] assigns it once
    and then registers the message listener. *)
Theorem resolveCustomTextEditor_assigns_page `{L : Lib} (H : Host) (s : state H)
    (doc : TextDocument) (html : Html) :
  let setup := [OnDidSaveTextDocument; OnDidDispose; SetWebviewOptions true] in
  let building := run H FlatConfigEditor.getHtmlForWebview (after H s setup) in
  outcome building = Returned html ->
  let r := run H (FlatConfigEditor.resolveCustomTextEditor doc) s in
  outcome r = Returned tt
  /\ calls (trace r) =
     setup ++ calls (trace building) ++ [SetWebviewHtml html; OnDidReceiveMessage].
Proof.
  intros setup building Hbuilt r; subst setup building r.
  cbn in *.
  rewrite run_bind, run_tryCatch, run_bind, Hbuilt; unfold andThen; cbn.
  repeat match goal with
         | |- context [act ?H ?c ?s] =>
             let r := fresh "r" in
             destruct (act H c s) as [r ?]; cbn; try destruct r; cbn
         end;
    unfold calls; rewrite ?map_app, <- ?app_assoc; cbn; split; reflexivity.
Qed.

Lemma resolveCustomTextEditor_assigns_page_witness :
  outcome (run Memory.host
             (FlatConfigEditor.resolveCustomTextEditor (H := Memory.lib)
                Scenario.anyDocument)
             Scenario.existingFlatYml)
  = Returned tt.
Proof.
  exact (proj1 (resolveCustomTextEditor_assigns_page (L := Memory.lib)
                  Memory.host Scenario.existingFlatYml Scenario.anyDocument _
                  eq_refl)).
Defined.

(** The listener for saved documents.  The save of another document makes
    no host call.  The save of the document of the editor rebuilds and
    assigns the page while a text editor is active; otherwise it parses
    the saved text and posts it as [updateState], and posts nothing when
    the text does not parse.  The listener never throws. *)
Theorem saved_document_refreshes_webview `{L : Lib} (H : Host) (s : state H)
    (doc saved : TextDocument) :
  let r := run H (FlatConfigEditor.onDidSaveTextDocument doc saved) s in
  let building := run H FlatConfigEditor.getHtmlForWebview s in
  outcome r = Returned tt
  /\ calls (trace r) =
     if String.eqb (uri_toString (doc_uri saved)) (uri_toString (doc_uri doc))
     then
       match observe H ActiveTextEditor s with
       | Some _ =>
           calls (trace building) ++
           match outcome building with
           | Returned html => [SetWebviewHtml html]
           | Thrown _ => []
           end
       | None =>
           match parse (observe H (GetText saved) s) with
           | Returned config =>
               [PostMessage (VObj [("command", VStr "updateState");
                                   ("config", config)])]
           | Thrown _ => []
           end
       end
     else [].
Proof.
  intros r building; subst r building.
  unfold FlatConfigEditor.onDidSaveTextDocument.
  destruct (String.eqb _ _); [| split; reflexivity].
  rewrite run_detach. split; [reflexivity |].
  unfold FlatConfigEditor.updateWebview; cbn.
  destruct (observe H ActiveTextEditor s) as [editor |]; cbn.
  - rewrite run_bind.
    destruct (run H FlatConfigEditor.getHtmlForWebview s) as [[html | e] s1 tr];
      unfold andThen; cbn; [| now rewrite app_nil_r].
    unfold calls; rewrite map_app. reflexivity.
  - destruct (parse _); reflexivity.
Qed.

(** Text that does not parse never reaches the webview: on the host in
    memory, with a parser that rejects everything, nothing is posted. *)
Example unparsable_text_is_not_posted :
  run Memory.host
    (FlatConfigEditor.onDidSaveTextDocument (H := Situation.strict)
       Scenario.anyDocument Scenario.anyDocument)
    Scenario.existingFlatYml
  = mkResult (Returned tt) Scenario.existingFlatYml [].
Proof. reflexivity. Qed.

(** ** The link command *)

Lemma digits_of_uint (d : Decimal.uint) (acc : nat) :
  OpenDocumentLink.digits (Z.of_nat acc) (NilEmpty.string_of_uint d)
  = Some (Z.of_nat (Nat.of_uint_acc d acc)).
Proof.
  revert acc; induction d; intros acc; cbn [NilEmpty.string_of_uint Nat.of_uint_acc];
    [reflexivity | ..];
    (change (OpenDocumentLink.digits ?a (String ?c ?rest))
       with (OpenDocumentLink.digits
               (10 * a + (Z.of_nat (nat_of_ascii c) - 48)) rest);
     rewrite <- IHd; f_equal; rewrite Nat.tail_mul_spec;
     match goal with
     | |- context [nat_of_ascii ?c] =>
         let v := eval vm_compute in (nat_of_ascii c) in
         change (nat_of_ascii c) with v
     end;
     lia).
Qed.

Lemma digits_nonnegative (s : string) (acc n : Z) :
  (0 <= acc)%Z -> OpenDocumentLink.digits acc s = Some n -> (0 <= n)%Z.
Proof.
  revert acc; induction s as [| c rest IH]; intros acc Hacc; cbn.
  - intros [= <-]. exact Hacc.
  - destruct (OpenDocumentLink.isDigit c) eqn:Hc; [| discriminate].
    apply IH. unfold OpenDocumentLink.isDigit in Hc.
    apply andb_true_iff in Hc as [Hlow _]. apply Nat.leb_le in Hlow. lia.
Qed.

(** The decimal digits of [n] are not empty and spell [n]. *)
Lemma digits_decimal (n : nat) :
  exists c rest,
    NilEmpty.string_of_uint (Nat.to_uint n) = String c rest
    /\ OpenDocumentLink.digits 0 (String c rest) = Some (Z.of_nat n).
Proof.
  assert (Hvalue : OpenDocumentLink.digits 0
                     (NilEmpty.string_of_uint (Nat.to_uint n))
                   = Some (Z.of_nat n)).
  { change 0%Z with (Z.of_nat 0). rewrite digits_of_uint.
    change (Nat.of_uint_acc (Nat.to_uint n) 0) with (Nat.of_uint (Nat.to_uint n)).
    now rewrite DecimalNat.Unsigned.of_to. }
  assert (Hsome : exists c rest,
             NilEmpty.string_of_uint (Nat.to_uint n) = String c rest).
  { destruct (Nat.to_uint n) eqn:Hd; cbn; eauto.
    exfalso.
    apply (DecimalFacts.unorm_nonnil (Nat.to_uint n)).
    rewrite <- DecimalNat.Unsigned.to_of, DecimalNat.Unsigned.of_to. exact Hd. }
  destruct Hsome as (c & rest & Hdecimal).
  exists c, rest. split; [exact Hdecimal |].
  rewrite <- Hdecimal. exact Hvalue.
Qed.

(** Up to [2^53] an integer is its own nearest double. *)
Lemma nearestDouble_exact (v : Z) :
  (v <= 2 ^ 53)%Z -> nearestDouble v = Finite v.
Proof.
  intros Hv. unfold nearestDouble.
  destruct (Z.ltb_spec v (2 ^ 53)) as [_ | Hge]; [reflexivity |].
  assert (v = 2 ^ 53)%Z as -> by lia. reflexivity.
Qed.

Lemma nearestDouble_nonnegative (v : Z) :
  (0 <= v)%Z -> isNegative (nearestDouble v) = false.
Proof.
  intros Hv. unfold nearestDouble.
  destruct (Z.ltb_spec v (2 ^ 53)) as [_ | _]; cbn [isNegative];
    [apply Z.ltb_ge; exact Hv |].
  cbv zeta.
  set (e := (Z.log2 v - 52)%Z).
  pose proof (proj2 (Z.shiftr_nonneg v e) Hv) as Hq.
  set (q := Z.shiftr v e) in *.
  match goal with
  | |- context [Z.shiftl ?q' e] =>
      assert (Hq' : (0 <= q')%Z)
        by (repeat match goal with
                   | |- context [if ?b then _ else _] => destruct b
                   end; lia);
      generalize dependent q'
  end.
  intros q' Hq'.
  destruct (Z.shiftl q' e <? 2 ^ 1024)%Z; cbn [isNegative]; [| reflexivity].
  apply Z.ltb_ge, Z.shiftl_nonneg. exact Hq'.
Qed.

(** The line-number fragment reads the digits as JavaScript does: [L] or
    [l] followed by the decimal digits of [n] gives the double nearest to
    [n].  That is [n] itself up to [2^53] and no longer above: the digits
    of [2^53 + 1] read as [2^53].  What is read is never negative. *)
Theorem lineNumberFragment_reads_decimal (n : nat) :
  let decimal := NilEmpty.string_of_uint (Nat.to_uint n) in
  OpenDocumentLink.lineNumberFragment ("L" +:+ decimal)
  = Some (nearestDouble (Z.of_nat n))
  /\ OpenDocumentLink.lineNumberFragment ("l" +:+ decimal)
     = Some (nearestDouble (Z.of_nat n))
  /\ ((Z.of_nat n <= 2 ^ 53)%Z -> nearestDouble (Z.of_nat n) = Finite (Z.of_nat n))
  /\ nearestDouble (2 ^ 53 + 1) = Finite (2 ^ 53)
  /\ (forall fragment number,
        OpenDocumentLink.lineNumberFragment fragment = Some number ->
        isNegative number = false).
Proof.
  intros decimal; subst decimal.
  destruct (digits_decimal n) as (c & rest & -> & Hvalue).
  assert (Hread : forall l,
             Ascii.eqb l "L" || Ascii.eqb l "l" = true ->
             OpenDocumentLink.lineNumberFragment (String l (String c rest))
             = Some (nearestDouble (Z.of_nat n))).
  { intros l Hl. unfold OpenDocumentLink.lineNumberFragment.
    rewrite Hl, Hvalue. reflexivity. }
  split; [exact (Hread "L"%char eq_refl) |].
  split; [exact (Hread "l"%char eq_refl) |].
  split; [apply nearestDouble_exact |].
  split; [reflexivity |].
  intros fragment number.
  unfold OpenDocumentLink.lineNumberFragment.
  destruct fragment as [| c0 [| c1 rest1]]; try discriminate.
  destruct (Ascii.eqb c0 "L" || Ascii.eqb c0 "l"); [| discriminate].
  destruct (OpenDocumentLink.digits 0 (String c1 rest1)) as [v |] eqn:Hdigits;
    [| discriminate].
  intros [= <-]. apply nearestDouble_nonnegative.
  apply (digits_nonnegative (String c1 rest1) 0 v); [lia | exact Hdigits].
Qed.

(** [tryRevealLine] makes no host call for an empty fragment.  Otherwise it
    looks the fragment up among the headings first: the line of a heading
    found is the one to reveal, whatever the fragment looks like; only
    when none is found is the fragment read as a line number [L<n>], and
    then the line to reveal is that number less one.  A fragment that is
    neither reveals nothing.  A line that is negative, as for [L0], is
    rejected when the range is built: nothing is revealed and the call
    throws. *)
Theorem tryRevealLine_heading_first (H : Host) (s : state H)
    (editor : TextEditor) (fragment : string) :
  let r := run H (OpenDocumentLink.tryRevealLine editor fragment) s in
  let lookup := TocLookup (editor_document editor) fragment in
  let target : option Number :=
    if String.eqb fragment "" then None
    else
      match replyAfter H s [] lookup with
      | Thrown _ => None
      | Returned (Some line) => Some (Finite line)
      | Returned None =>
          option_map minusOne (OpenDocumentLink.lineNumberFragment fragment)
      end in
  calls (trace r)
  = (if String.eqb fragment "" then [] else [lookup])
    ++ match target with
       | Some line =>
           if isNegative line then []
           else [RevealRange editor (mkNumberRange line 0 line 0)]
       | None => []
       end
  /\ match target with
     | Some line =>
         isNegative line = true ->
         outcome r
         = Thrown (mkError "Error" "Illegal argument: line must be non-negative")
     | None => True
     end.
Proof.
  intros r lookup target; subst r lookup target.
  unfold OpenDocumentLink.tryRevealLine, nonEmpty, replyAfter.
  destruct (String.eqb fragment ""); cbn; [split; [reflexivity | exact I] |].
  serve_call. destruct r as [[line |] | e]; cbn;
    try (split; [reflexivity | exact I]).
  - unfold rangeAtLine; cbn [isNegative].
    destruct (line <? 0)%Z eqn:Hline; cbn.
    + split; [reflexivity | intros _; reflexivity].
    + serve_call. split; [destruct r; reflexivity | discriminate].
  - destruct (OpenDocumentLink.lineNumberFragment fragment) as [number |];
      cbn; [| split; [reflexivity | exact I]].
    unfold rangeAtLine.
    destruct (isNegative (minusOne number)) eqn:Hline; cbn.
    + split; [reflexivity | intros _; reflexivity].
    + serve_call. split; [destruct r; reflexivity | discriminate].
Qed.

(** A link [#L<n>] into a document without such a heading reveals line
    [n - 1], for every [n] from 1 to [2^53]; the link [#L0] reveals
    nothing and throws. *)
Theorem line_fragment_reveals_line (H : Host) (s : state H)
    (editor : TextEditor) (n : nat) :
  let fragment := "L" +:+ NilEmpty.string_of_uint (Nat.to_uint n) in
  let lookup := TocLookup (editor_document editor) fragment in
  replyAfter H s [] lookup = Returned None ->
  (Z.of_nat n <= 2 ^ 53)%Z ->
  let r := run H (OpenDocumentLink.tryRevealLine editor fragment) s in
  if Nat.eqb n 0
  then
    outcome r
    = Thrown (mkError "Error" "Illegal argument: line must be non-negative")
    /\ calls (trace r) = [lookup]
  else
    calls (trace r)
    = [lookup;
       RevealRange editor
         (mkNumberRange (Finite (Z.of_nat n - 1)) 0 (Finite (Z.of_nat n - 1)) 0)].
Proof.
  intros fragment lookup Hmiss Hsmall r; subst r.
  assert (Hline : OpenDocumentLink.lineNumberFragment fragment
                  = Some (Finite (Z.of_nat n))).
  { subst fragment.
    destruct (digits_decimal n) as (c & rest & -> & Hvalue).
    change (OpenDocumentLink.lineNumberFragment ("L" +:+ String c rest))
      with (option_map nearestDouble (OpenDocumentLink.digits 0 (String c rest))).
    rewrite Hvalue. cbn [option_map].
    rewrite (nearestDouble_exact _ Hsmall). reflexivity. }
  assert (Hsome : nonEmpty fragment = true) by reflexivity.
  subst lookup. clearbody fragment.
  unfold replyAfter in Hmiss; cbn in Hmiss.
  unfold OpenDocumentLink.tryRevealLine. rewrite Hsome. cbn.
  serve_call. subst r. cbn. rewrite Hline. cbn [minusOne].
  rewrite (nearestDouble_exact (Z.of_nat n - 1)) by lia.
  unfold rangeAtLine; cbn [isNegative].
  destruct n as [| n]; cbn [Nat.eqb].
  - split; reflexivity.
  - destruct (Z.ltb_spec (Z.of_nat (S n) - 1) 0); [lia |]. cbn.
    serve_call. destruct r; reflexivity.
Qed.

Lemma line_fragment_reveals_line_witness :
  calls (trace (run Memory.host
                  (OpenDocumentLink.tryRevealLine
                     (mkTextEditor Scenario.anyDocument 0) "L12")
                  Memory.empty))
  = [TocLookup Scenario.anyDocument "L12";
     RevealRange (mkTextEditor Scenario.anyDocument 0)
       (mkNumberRange (Finite 11) 0 (Finite 11) 0)].
Proof.
  exact (line_fragment_reveals_line Memory.host Memory.empty
           (mkTextEditor Scenario.anyDocument 0) 12 eq_refl
           ltac:(vm_compute; discriminate)).
Defined.

(** The numbers at the edges: the digits of [2^53 + 1] and of [2^53 + 3]
    read as the even neighbour, [10^309] reads as [Infinity], [#L0] asks
    for line [-1], and above [2^53] taking one off rounds again. *)
Example lineNumberFragment_rounds :
  OpenDocumentLink.lineNumberFragment "L9007199254740993"
  = Some (Finite 9007199254740992)
  /\ OpenDocumentLink.lineNumberFragment "L9007199254740995"
     = Some (Finite 9007199254740996)
  /\ nearestDouble (10 ^ 308) <> Infinity
  /\ nearestDouble (10 ^ 309) = Infinity
  /\ option_map minusOne (OpenDocumentLink.lineNumberFragment "L0")
     = Some (Finite (-1))
  /\ minusOne (Finite (2 ^ 53)) = Finite (2 ^ 53 - 1)
  /\ minusOne (Finite (2 ^ 53 + 2)) = Finite (2 ^ 53)
  /\ minusOne (Finite (2 ^ 53 + 4)) = Finite (2 ^ 53 + 4).
Proof. vm_compute. repeat split; discriminate. Qed.

(** [tryOpen] touches the file system only when it has to.  When the active
    editor shows a Markdown document with the path of the target, only the
    fragment is revealed there: nothing is stat'ed or opened.  Otherwise
    the target is stat'ed: a failing [stat] ends the attempt before any
    document is opened, a directory is revealed in the explorer and not
    opened, and anything else is opened and shown in the given column. *)
Theorem tryOpen_by_kind `{L : Lib} (H : Host) (s : state H) (resource : Uri)
    (args : OpenDocumentLink.OpenDocumentLinkArgs) (column : ViewColumn) :
  let r := run H (OpenDocumentLink.tryOpen resource args column) s in
  let shown :=
    match observe H ActiveTextEditor s with
    | Some editor =>
        isMarkdownFile (editor_document editor)
        && String.eqb (fsPath (doc_uri (editor_document editor))) (fsPath resource)
    | None => false
    end in
  match observe H ActiveTextEditor s with
  | Some editor =>
      shown = true ->
      r = run H (OpenDocumentLink.tryRevealLine editor
                   (OpenDocumentLink.args_fragment args)) s
  | None => True
  end
  /\ (shown = false ->
      match replyAfter H s [] (Stat resource) with
      | Thrown e => outcome r = Thrown e /\ calls (trace r) = [Stat resource]
      | Returned type =>
          if (type =? FileType_Directory)%Z
          then calls (trace r)
               = [Stat resource; ExecuteCommand "revealInExplorer" [AUri resource]]
          else
            match replyAfter H s [Stat resource] (OpenTextDocument resource) with
            | Thrown e =>
                outcome r = Thrown e
                /\ calls (trace r) = [Stat resource; OpenTextDocument resource]
            | Returned document =>
                exists rest,
                  calls (trace r)
                  = Stat resource :: OpenTextDocument resource
                    :: ShowTextDocument document (Some column) :: rest
            end
      end).
Proof.
  intros r shown; subst r shown.
  unfold OpenDocumentLink.tryOpen, replyAfter; cbn.
  destruct (observe H ActiveTextEditor s) as [editor |]; cbn.
  - destruct (isMarkdownFile (editor_document editor) && _) eqn:Hshown; cbn.
    + split; [reflexivity | discriminate].
    + split; [discriminate | intros _].
      serve_call. destruct r as [type | e]; cbn; [| split; reflexivity].
      destruct (type =? FileType_Directory)%Z; cbn.
      * serve_call. destruct r; reflexivity.
      * serve_call. destruct r as [document | e]; cbn; [| split; reflexivity].
        eexists. reflexivity.
  - split; [exact I | intros _].
    serve_call. destruct r as [type | e]; cbn; [| split; reflexivity].
    destruct (type =? FileType_Directory)%Z; cbn.
    + serve_call. destruct r; reflexivity.
    + serve_call. destruct r as [document | e]; cbn; [| split; reflexivity].
      eexists. reflexivity.
Qed.

Lemma tryOpen_by_kind_witness :
  outcome (run Memory.host
             (OpenDocumentLink.tryOpen (H := Memory.lib)
                (Scenario.fileUri "/repo/readme") Scenario.readmeLink Active)
             Scenario.docsRepo)
  = Thrown Memory.noSuchFile
  /\ calls (trace (run Memory.host
                     (OpenDocumentLink.tryOpen (H := Memory.lib)
                        (Scenario.fileUri "/repo/readme") Scenario.readmeLink
                        Active)
                     Scenario.docsRepo))
     = [Stat (Scenario.fileUri "/repo/readme")].
Proof.
  exact (proj2 (tryOpen_by_kind (L := Memory.lib) Memory.host Scenario.docsRepo
                  (Scenario.fileUri "/repo/readme") Scenario.readmeLink Active)
           eq_refl).
Defined.

(** A malformed escape in the arguments makes [execute] throw before the
    [try]: no host call is made and the fallbacks do not run. *)
Theorem execute_rejects_malformed_escape `{L : Lib} (H : Host) (s : state H)
    (args : OpenDocumentLink.OpenDocumentLinkArgs) (e : Error) :
  decodeURIComponent (OpenDocumentLink.args_fromResource args) = Thrown e
  \/ (exists from,
        decodeURIComponent (OpenDocumentLink.args_fromResource args)
        = Returned from
        /\ decodeURIComponent (OpenDocumentLink.args_path args) = Thrown e) ->
  run H (OpenDocumentLink.execute args) s = mkResult (Thrown e) s [].
Proof.
  intros [Hfrom | (from & Hfrom & Hpath)]; unfold OpenDocumentLink.execute.
  - rewrite Hfrom. reflexivity.
  - rewrite Hfrom, Hpath. reflexivity.
Qed.

Lemma execute_rejects_malformed_escape_witness :
  run Memory.host
    (OpenDocumentLink.execute (H := Situation.strict) Situation.percentLink)
    Scenario.docsRepo
  = mkResult (Thrown (mkError "URIError" "URI malformed")) Scenario.docsRepo [].
Proof.
  apply (execute_rejects_malformed_escape (L := Situation.strict) Memory.host
           Scenario.docsRepo Situation.percentLink).
  right. exists "/repo/a.md". split; reflexivity.
Defined.

(** What [createCommandUri] packs, [execute] unpacks: given that
    [decodeURIComponent] undoes [encodeURIComponent], the command built for
    [path] acts on [Uri.file(path)], whatever characters the path holds,
    and reads the view column for the document the link was in. *)
Theorem execute_unpacks_command_args `{L : Lib} (H : Host) (s : state H)
    (encodeURIComponent : string -> string) (toStringSkipEncoding : Uri -> string)
    (fromResource : Uri) (path fragment : string) :
  (forall text, decodeURIComponent (encodeURIComponent text) = Returned text) ->
  let args :=
    LinkUri.commandArgs encodeURIComponent toStringSkipEncoding
      fromResource path fragment in
  let target := Uri_file path in
  let column :=
    if String.eqb
         (observe H (LinksOpenLocation
                       (Uri_parse (toStringSkipEncoding fromResource))) s)
         "beside"
    then Beside else Active in
  run H (OpenDocumentLink.execute args) s
  = run H (tryCatch
             (OpenDocumentLink.tryOpen target args column)
             (fun _ =>
                if String.eqb (extname (uri_path target)) ""
                then OpenDocumentLink.tryOpen (OpenDocumentLink.withMd target)
                       args column
                else
                  executeCommand "vscode.open"
                    [AUri target; AVal (viewColumnValue column)] ;;
                  Ret tt)) s.
Proof.
  intros Hundo args target column; subst args target column.
  unfold OpenDocumentLink.execute, LinkUri.commandArgs; cbn.
  rewrite !Hundo. reflexivity.
Qed.

Lemma execute_unpacks_command_args_witness :
  calls (trace (run Memory.host
                  (OpenDocumentLink.execute (H := Memory.lib)
                     (LinkUri.commandArgs (fun text => text) uri_path
                        (Scenario.fileUri "/repo/a.md") "/repo/readme.md" ""))
                  Scenario.docsRepo))
  = [Stat (Scenario.fileUri "/repo/readme.md");
     OpenTextDocument (Scenario.fileUri "/repo/readme.md");
     ShowTextDocument
       (mkTextDocument (Scenario.fileUri "/repo/readme.md") "markdown")
       (Some Active)].
Proof.
  rewrite (execute_unpacks_command_args (L := Memory.lib) Memory.host
             Scenario.docsRepo (fun text => text) uri_path
             (Scenario.fileUri "/repo/a.md") "/repo/readme.md" ""
             (fun text => eq_refl)).
  reflexivity.
Defined.

(** ** [createAzureFunction], step by step *)

(** Without the Azure Functions extension nothing happens: when
    [getAzureFunctionsExtensionApi] gives no API, or throws, the project is
    not looked up and the user is not asked anything. *)
Theorem createAzureFunction_needs_extension `{L : Lib} (H : Host) (s : state H)
    (connectionString schema table : string) :
  replyAfter H s [] GetAzureFunctionsExtensionApi <> Returned true ->
  let r :=
    run H (AzureFunctions.createAzureFunction connectionString schema table) s in
  calls (trace r) = [GetAzureFunctionsExtensionApi]
  /\ outcome r
     = match replyAfter H s [] GetAzureFunctionsExtensionApi with
       | Returned _ => Returned tt
       | Thrown e => Thrown e
       end.
Proof.
  unfold replyAfter, AzureFunctions.createAzureFunction; cbn.
  serve_call. intros Hnone.
  destruct r as [[|] | e]; cbn; [congruence | |]; split; reflexivity.
Qed.

Lemma createAzureFunction_needs_extension_witness :
  calls (trace (run Situation.bare
                  (AzureFunctions.createAzureFunction (H := Memory.lib)
                     "cs" "dbo" "t")
                  Scenario.openProject))
  = [GetAzureFunctionsExtensionApi].
Proof.
  refine (proj1 (createAzureFunction_needs_extension (L := Memory.lib)
                   Situation.bare Scenario.openProject "cs" "dbo" "t" _)).
  cbn. discriminate.
Defined.

(** With no project open the user is asked what to do.  [Learn more] opens
    the documentation -- without waiting for it, so that a failure of the
    command is not a failure of [createAzureFunction] -- and ends there.
    [Create Azure Function Project] starts with a watcher for the host file.
    Any other answer, or none, ends there: without a project nothing is
    created and nothing is bound. *)
Theorem createAzureFunction_without_project `{L : Lib} (H : Host) (s : state H)
    (connectionString schema table : string) (projectFile : option string) :
  let api := GetAzureFunctionsExtensionApi in
  let project := GetAzureFunctionProject in
  let prompt :=
    ShowErrorMessage azureFunctionsProjectMustBeOpened
      [createProject; learnMore] in
  replyAfter H s [] api = Returned true ->
  replyAfter H s [api] project = Returned projectFile ->
  AzureFunctions.isSet projectFile = false ->
  let choice := replyAfter H s [api; project] prompt in
  let r :=
    run H (AzureFunctions.createAzureFunction connectionString schema table) s in
  if AzureFunctions.picked choice learnMore then
    outcome r = Returned tt
    /\ calls (trace r)
       = [api; project; prompt;
          ExecuteCommand "vscode.open" [AUri (Uri_parse sqlBindingsDoc)]]
  else if AzureFunctions.picked choice createProject then
    exists rest,
      calls (trace r) = api :: project :: prompt :: WaitForNewHostFile :: rest
  else
    outcome r = Returned tt /\ calls (trace r) = [api; project; prompt].
Proof.
  intros api project prompt Hapi Hproject Hunset choice r.
  subst api project prompt choice r.
  unfold replyAfter in *; cbn in *.
  unfold AzureFunctions.createAzureFunction.
  cbn. rewrite Hapi; cbn. rewrite Hproject; cbn. rewrite Hunset; cbn.
  serve_call.
  destruct (AzureFunctions.picked r learnMore); cbn.
  - serve_call. destruct r0; split; reflexivity.
  - destruct (AzureFunctions.picked r createProject); cbn.
    + eexists. reflexivity.
    + destruct projectFile as [p |]; cbn in *;
        [rewrite Hunset |]; split; reflexivity.
Qed.

Lemma createAzureFunction_without_project_witness :
  calls (trace (run Memory.host
                  (AzureFunctions.createAzureFunction (H := Memory.lib)
                     "cs" "dbo" "t")
                  Situation.learning))
  = [GetAzureFunctionsExtensionApi; GetAzureFunctionProject;
     ShowErrorMessage "An Azure Functions project must be opened"
       ["Create Azure Function Project"; "Learn more"];
     ExecuteCommand "vscode.open"
       [AUri (Uri_parse (Lib := Memory.lib) (sqlBindingsDoc (Lib := Memory.lib)))]].
Proof.
  exact (proj2 (createAzureFunction_without_project (L := Memory.lib) Memory.host
                  Situation.learning "cs" "dbo" "t" None eq_refl eq_refl eq_refl)).
Defined.

(** Follow the program through every reply, keeping what was learned about
    the strings that were tested. *)
Ltac every_answer :=
  repeat (cbn;
          match goal with
          | |- context [act ?H ?c ?s] =>
              let r := fresh "r" in
              let s' := fresh "s" in
              destruct (act H c s) as [r s']; cbn; try destruct r
          | |- context [if nonEmpty ?x then _ else _] =>
              let E := fresh "E" in destruct (nonEmpty x) eqn:E
          | |- context [if ?b then _ else _] => destruct b
          | |- context [match ?x with _ => _ end] => is_var x; destruct x
          end);
  cbn.

(** In every run, the steps that change the project come in one order --
    package reference, connection string, service, binding, method body.
    The project they change is the one [getAzureFunctionProject] found
    last, the connection string is the one given, and the binding goes
    into the function file the watcher reported last, under the non-empty
    name the user typed, with the type the user picked, for the quoted
    name of the table.  This covers the runs that create the project
    first. *)
Lemma binding_steps_in_order `{L : Lib} (H : Host) (s : state H)
    (connectionString schema table : string) :
  let r :=
    run H (AzureFunctions.createAzureFunction connectionString schema table) s in
  let tr := trace r in
  omap Binding.step (calls tr)
    `prefix_of` [Binding.AddReference; Binding.AddConnectionString;
                 Binding.GetService; Binding.AddBinding; Binding.OverwriteBody]
  /\ Forall
       (fun c =>
          match c with
          | AddNugetReferenceToProjectFile projectFile =>
              last (omap Binding.projectFound tr) = Some projectFile
          | AddConnectionStringToConfig connection projectFile =>
              connection = connectionString
              /\ last (omap Binding.projectFound tr) = Some projectFile
          | AddSqlBinding type functionFile functionName objectName setting =>
              omap Binding.bindingPicked tr = [type]
              /\ omap Binding.nameGiven tr = [functionName]
              /\ nonEmpty functionName = true
              /\ last (omap Binding.fileReported tr) = Some functionFile
              /\ objectName = generateQuotedFullName schema table
              /\ setting = sqlConnectionString
          | OverwriteAzureFunctionMethodBody functionFile =>
              last (omap Binding.fileReported tr) = Some functionFile
          | _ => True
          end)
       (calls tr).
Proof.
  cbv zeta. unfold AzureFunctions.createAzureFunction.
  every_answer;
    (split;
     [ eexists; reflexivity
     | repeat constructor; assumption ]).
Qed.

(** With a project open, the function is created as the user names it, and
    the binding type is asked for only once the function file is there.
    The watcher for the function file comes first and is disposed however
    the block ends.  The name is asked for with the unique file name as
    the suggestion.  A box that is dismissed or left empty ends the run:
    nothing is created.  Otherwise [createFunction] gets the C# HTTP
    trigger template, that name and the project; when it fails, or when
    the wait for the function file fails or times out, the run ends with
    that error and no binding type is asked for.  Only when the file was
    reported is the quick pick shown, right after the watcher is
    disposed. *)
Theorem function_is_created_as_named `{L : Lib} (H : Host) (s : state H)
    (connectionString schema table projectFile : string) :
  let api := GetAzureFunctionsExtensionApi in
  let project := GetAzureFunctionProject in
  let wait := WaitForNewFunctionFile projectFile in
  let unique := GetUniqueFileName (path_dirname projectFile) table in
  let pick :=
    ShowQuickPick [(constants_input, input); (constants_output, output)]
      selectBindingType in
  replyAfter H s [] api = Returned true ->
  replyAfter H s [api] project = Returned (Some projectFile) ->
  nonEmpty projectFile = true ->
  let r :=
    run H (AzureFunctions.createAzureFunction connectionString schema table) s in
  match replyAfter H s [api; project] wait with
  | Thrown e => outcome r = Thrown e /\ calls (trace r) = [api; project; wait]
  | Returned watcher =>
      let dispose := DisposeWatcher (watcherDisposable watcher) in
      match replyAfter H s [api; project; wait] unique with
      | Thrown e =>
          outcome r = Thrown e
          /\ calls (trace r) = [api; project; wait; unique; dispose]
      | Returned suggestion =>
          let box := ShowInputBox functionNameTitle suggestion in
          match replyAfter H s [api; project; wait; unique] box with
          | None =>
              outcome r = Returned tt
              /\ calls (trace r) = [api; project; wait; unique; box; dispose]
          | Some functionName =>
              if nonEmpty functionName then
                let create :=
                  CreateFunction
                    (VObj [("language", VStr "C#");
                           ("templateId", VStr "HttpTrigger");
                           ("functionName", VStr functionName);
                           ("folderPath", VStr projectFile)]) in
                let await :=
                  AwaitFileOrTimeout (filePromise watcher)
                    timeoutAzureFunctionFileError in
                match replyAfter H s [api; project; wait; unique; box] create with
                | Thrown e =>
                    outcome r = Thrown e
                    /\ calls (trace r)
                       = [api; project; wait; unique; box; create; dispose]
                | Returned _ =>
                    match replyAfter H s
                            [api; project; wait; unique; box; create] await with
                    | Thrown e =>
                        outcome r = Thrown e
                        /\ calls (trace r)
                           = [api; project; wait; unique; box; create; await;
                              dispose]
                    | Returned _ =>
                        exists rest,
                          calls (trace r)
                          = [api; project; wait; unique; box; create; await;
                             dispose; pick] ++ rest
                    end
                end
              else
                outcome r = Returned tt
                /\ calls (trace r) = [api; project; wait; unique; box; dispose]
          end
      end
  end.
Proof.
  intros api project wait unique pick Hapi Hproject Hopen r.
  subst api project wait unique pick r.
  unfold replyAfter in *; cbn in *.
  unfold AzureFunctions.createAzureFunction.
  cbn. rewrite Hapi; cbn. rewrite Hproject; cbn. rewrite !Hopen; cbn.
  rewrite ?Hopen; cbn.
  unfold AzureFunctions.addBinding; cbn.
  serve_call. destruct r as [watcher | e]; cbn; [| split; reflexivity].
  unfold AzureFunctions.createFunctionBlock; cbn.
  serve_call. destruct r as [suggestion | e]; cbn.
  2: { try serve_call; split; reflexivity. }
  serve_call. destruct r as [functionName |]; cbn.
  2: { try serve_call; split; reflexivity. }
  destruct (nonEmpty functionName); cbn.
  2: { try serve_call; split; reflexivity. }
  serve_call. destruct r as [[] | e]; cbn.
  2: { try serve_call; split; reflexivity. }
  serve_call. destruct r as [functionFile | e]; cbn.
  2: { try serve_call; split; reflexivity. }
  try serve_call.
  eexists. reflexivity.
Qed.

Lemma function_is_created_as_named_witness :
  exists rest,
    calls (trace (run Memory.host
                    (AzureFunctions.createAzureFunction (H := Memory.lib)
                       "cs" "dbo" "t")
                    Scenario.openProject))
    = [GetAzureFunctionsExtensionApi; GetAzureFunctionProject;
       WaitForNewFunctionFile "/p/proj.csproj";
       GetUniqueFileName "/p" "t";
       ShowInputBox (functionNameTitle (Lib := Memory.lib)) "t";
       CreateFunction
         (VObj [("language", VStr "C#"); ("templateId", VStr "HttpTrigger");
                ("functionName", VStr "fn");
                ("folderPath", VStr "/p/proj.csproj")]);
       AwaitFileOrTimeout 0 (timeoutAzureFunctionFileError (Lib := Memory.lib));
       DisposeWatcher 1;
       ShowQuickPick
         [(constants_input (Lib := Memory.lib), input);
          (constants_output (Lib := Memory.lib), output)]
         (selectBindingType (Lib := Memory.lib))]
      ++ rest.
Proof.
  exact (function_is_created_as_named (L := Memory.lib) Memory.host
           Scenario.openProject "cs" "dbo" "t" "/p/proj.csproj"
           eq_refl eq_refl eq_refl).
Defined.

(** The binding that is added is the one the user asked for.  Once the
    function file is there the user picks the binding type; without a
    pick the run ends there.  With a pick the five steps that change the
    project are made in order -- package reference and connection string
    for the project, the service, the binding of the picked type in the
    reported file under the typed name for the quoted name of the table,
    and the new method body -- as far as the first that fails and no
    further: the error of that step is the error of the run. *)
Theorem binding_is_the_one_asked_for `{L : Lib} (H : Host) (s : state H)
    (connectionString schema table : string)
    (projectFile suggestion functionName functionFile : string)
    (watcher : IFileFunctionObject) :
  let api := GetAzureFunctionsExtensionApi in
  let project := GetAzureFunctionProject in
  let wait := WaitForNewFunctionFile projectFile in
  let unique := GetUniqueFileName (path_dirname projectFile) table in
  let box := ShowInputBox functionNameTitle suggestion in
  let create :=
    CreateFunction
      (VObj [("language", VStr "C#"); ("templateId", VStr "HttpTrigger");
             ("functionName", VStr functionName);
             ("folderPath", VStr projectFile)]) in
  let await :=
    AwaitFileOrTimeout (filePromise watcher) timeoutAzureFunctionFileError in
  let dispose := DisposeWatcher (watcherDisposable watcher) in
  let pick :=
    ShowQuickPick [(constants_input, input); (constants_output, output)]
      selectBindingType in
  let asked := [api; project; wait; unique; box; create; await; dispose] in
  replyAfter H s [] api = Returned true ->
  replyAfter H s [api] project = Returned (Some projectFile) ->
  nonEmpty projectFile = true ->
  replyAfter H s [api; project] wait = Returned watcher ->
  replyAfter H s [api; project; wait] unique = Returned suggestion ->
  replyAfter H s [api; project; wait; unique] box = Some functionName ->
  nonEmpty functionName = true ->
  replyAfter H s [api; project; wait; unique; box] create = Returned tt ->
  replyAfter H s [api; project; wait; unique; box; create] await
  = Returned functionFile ->
  let r :=
    run H (AzureFunctions.createAzureFunction connectionString schema table) s in
  match replyAfter H s asked pick with
  | None => outcome r = Returned tt /\ calls (trace r) = asked ++ [pick]
  | Some type =>
      let steps :=
        [AddNugetReferenceToProjectFile projectFile;
         AddConnectionStringToConfig connectionString projectFile;
         GetAzureFunctionService;
         AddSqlBinding type functionFile functionName
           (generateQuotedFullName schema table) sqlConnectionString;
         OverwriteAzureFunctionMethodBody functionFile] in
      let made :=
        Binding.untilFailure H (after H s (asked ++ [pick])) steps in
      calls (trace r) = asked ++ pick :: fst made /\ outcome r = snd made
  end.
Proof.
  intros api project wait unique box create await dispose pick asked
    Hapi Hproject Hopen Hwait Hunique Hbox Hname Hcreate Hawait r.
  subst api project wait unique box create await dispose pick asked r.
  unfold replyAfter in *; cbn in *.
  unfold AzureFunctions.createAzureFunction.
  cbn. rewrite Hapi; cbn. rewrite Hproject; cbn. rewrite !Hopen; cbn.
  rewrite ?Hopen; cbn.
  unfold AzureFunctions.addBinding; cbn. rewrite Hwait; cbn.
  unfold AzureFunctions.createFunctionBlock; cbn. rewrite Hunique; cbn.
  rewrite Hbox; cbn. rewrite Hname; cbn. rewrite Hcreate; cbn.
  rewrite Hawait; cbn.
  clear Hapi Hproject Hwait Hunique Hbox Hcreate Hawait.
  match goal with
  | |- context [act H (ShowQuickPick ?items ?title) ?s0] =>
      generalize s0; intros s1
  end.
  destruct (act H (ShowQuickPick _ _) s1) as [[type |] s2]; cbn;
    [| split; reflexivity].
  do 5 (match goal with
        | |- context [act H ?c ?s0] =>
            is_var s0;
            destruct (act H c s0) as [[[] | e] ?]; cbn; [| split; reflexivity]
        end).
  split; reflexivity.
Qed.

Lemma binding_is_the_one_asked_for_witness :
  calls (trace (run Memory.host
                  (AzureFunctions.createAzureFunction (H := Memory.lib)
                     "cs" "dbo" "t")
                  Scenario.openProject))
  = [GetAzureFunctionsExtensionApi; GetAzureFunctionProject;
     WaitForNewFunctionFile "/p/proj.csproj";
     GetUniqueFileName "/p" "t";
     ShowInputBox (functionNameTitle (Lib := Memory.lib)) "t";
     CreateFunction
       (VObj [("language", VStr "C#"); ("templateId", VStr "HttpTrigger");
              ("functionName", VStr "fn");
              ("folderPath", VStr "/p/proj.csproj")]);
     AwaitFileOrTimeout 0 (timeoutAzureFunctionFileError (Lib := Memory.lib));
     DisposeWatcher 1;
     ShowQuickPick
       [(constants_input (Lib := Memory.lib), input);
        (constants_output (Lib := Memory.lib), output)]
       (selectBindingType (Lib := Memory.lib));
     AddNugetReferenceToProjectFile "/p/proj.csproj";
     AddConnectionStringToConfig "cs" "/p/proj.csproj";
     GetAzureFunctionService;
     AddSqlBinding input "/project/new-file" "fn"
       (generateQuotedFullName (Lib := Memory.lib) "dbo" "t")
       (sqlConnectionString (Lib := Memory.lib));
     OverwriteAzureFunctionMethodBody "/project/new-file"].
Proof.
  exact (proj1 (binding_is_the_one_asked_for (L := Memory.lib) Memory.host
                  Scenario.openProject "cs" "dbo" "t"
                  "/p/proj.csproj" "t" "fn" "/project/new-file"
                  (mkFileFunctionObject 0 1)
                  eq_refl eq_refl eq_refl eq_refl eq_refl eq_refl eq_refl
                  eq_refl eq_refl)).
Defined.

(** ** The strings the editor cuts *)

Lemma contains_cons (c d : ascii) (rest : string) :
  contains c (String d rest) = Ascii.eqb c d || contains c rest.
Proof. reflexivity. Qed.

Lemma afterLastSlash_none (s : string) :
  afterLastSlash s = None -> contains "/" s = false.
Proof.
  induction s as [| c rest IH]; [reflexivity |].
  cbn [afterLastSlash]. rewrite contains_cons.
  destruct (afterLastSlash rest); cbv beta iota; [discriminate |].
  rewrite (Ascii.eqb_sym "/" c).
  destruct (Ascii.eqb c "/"); cbv beta iota; [discriminate |].
  intros _. apply IH. reflexivity.
Qed.

Lemma afterLastSlash_suffix (s t : string) :
  afterLastSlash s = Some t ->
  contains "/" t = false /\ exists dir, s = dir +:+ "/" +:+ t.
Proof.
  revert t. induction s as [| c rest IH]; intros t; [discriminate |].
  cbn [afterLastSlash].
  destruct (afterLastSlash rest) as [t' |] eqn:E.
  - cbv beta iota. intros [= <-]. destruct (IH t' eq_refl) as [Hnone [dir ->]].
    split; [exact Hnone | exists (String c dir); reflexivity].
  - cbv beta iota.
    destruct (Ascii.eqb_spec c "/") as [-> |]; [| discriminate].
    intros [= <-]. split; [| exists ""; reflexivity].
    apply afterLastSlash_none. exact E.
Qed.

(** The directory name the page is given is the last segment of the path
    of the workspace: it holds no slash, and the path is that name, or
    ends with a slash and that name. *)
Theorem substringAfterLastSlash_last_segment (path : string) :
  let name := substringAfterLastSlash path in
  contains "/" name = false
  /\ (path = name \/ exists dir, path = dir +:+ "/" +:+ name).
Proof.
  cbv zeta. unfold substringAfterLastSlash.
  destruct (afterLastSlash path) as [t |] eqn:E.
  - destruct (afterLastSlash_suffix path t E) as [Hnone Hdir].
    split; [exact Hnone | right; exact Hdir].
  - split; [apply afterLastSlash_none; exact E | left; reflexivity].
Qed.

Lemma append_cons (c : ascii) (p s : string) :
  String c p +:+ s = String c (p +:+ s).
Proof. reflexivity. Qed.

Lemma prefix_append (p s : string) : String.prefix p (p +:+ s) = true.
Proof.
  induction p as [| c p IH].
  - destruct s; reflexivity.
  - rewrite append_cons. cbn. destruct (ascii_dec c c); [exact IH | congruence].
Qed.

Lemma index_append (p s : string) :
  p <> "" -> String.index 0 p (p +:+ s) = Some 0.
Proof.
  destruct p as [| c p]; [congruence | intros _].
  pose proof (prefix_append (String c p) s) as Hprefix.
  rewrite append_cons in *.
  cbn [String.index]. rewrite Hprefix. reflexivity.
Qed.

Lemma substring_all (s : string) : String.substring 0 (String.length s) s = s.
Proof. induction s as [| c s IH]; cbn; [reflexivity | rewrite IH; reflexivity]. Qed.

Lemma substring_append (p s : string) :
  String.substring (String.length p) (String.length s) (p +:+ s) = s.
Proof.
  induction p as [| c p IH]; [apply substring_all |].
  rewrite append_cons. cbn. exact IH.
Qed.

Lemma length_append (p s : string) :
  String.length (p +:+ s) = String.length p + String.length s.
Proof.
  induction p as [| c p IH]; [reflexivity |].
  rewrite append_cons. cbn. rewrite IH. reflexivity.
Qed.

(** [file.split(root)[1]] on a file under the root: the path after the
    root, up to the place where the text of the root comes again, if it
    does. *)
Lemma split_1_under_root (root rel : string) :
  root <> "" ->
  split_1 (root +:+ rel) root
  = Some match String.index 0 root rel with
         | None => rel
         | Some j => String.substring 0 j rel
         end.
Proof.
  intros Hroot. unfold split_1.
  destruct root as [| c root]; [congruence |].
  rewrite (index_append (String c root) rel Hroot). cbv zeta.
  rewrite length_append.
  replace (String.length (String c root) + String.length rel
           - (0 + String.length (String c root)))
    with (String.length rel) by lia.
  change (0 + String.length (String c root)) with (String.length (String c root)).
  rewrite substring_append.
  destruct (String.index 0 (String c root) rel); reflexivity.
Qed.

(** [loadFiles] posts, for the files found under the first folder, their
    paths relative to the folder, each after a dot, in the order in which
    they were found -- as long as the path of the folder does not come
    again inside a relative path. *)
Theorem loadFiles_posts_paths_under_root (H : Host) (s : state H)
    (folder : WorkspaceFolder) (others : list WorkspaceFolder)
    (relative : list string) :
  let root := uri_path (folder_uri folder) in
  let search :=
    Glob [root +:+ "/**/*"; "!" +:+ root +:+ "/.git";
          "!" +:+ root +:+ "/.vscode"; "!" +:+ root +:+ "/**/node_modules"]
      true in
  observe H WorkspaceFolders s = Some (folder :: others) ->
  root <> "" ->
  Forall (fun rel => String.index 0 root rel = None) relative ->
  replyAfter H s [] search = Returned (map (fun rel => root +:+ rel) relative) ->
  calls (trace (run H FlatConfigEditor.loadFiles s))
  = [search;
     PostMessage
       (VObj [("command", VStr "updateFiles");
              ("files", VArr (map (fun rel => VStr ("." +:+ rel)) relative))])].
Proof.
  intros root search Hfolder Hroot Hfresh Hfound; subst search.
  unfold replyAfter in Hfound; cbn in Hfound.
  unfold FlatConfigEditor.loadFiles, firstFolderUri; cbn.
  rewrite Hfolder; cbn. fold root.
  serve_call. subst r. cbn.
  assert (map VStr
            (map (fun file => "." +:+ interpolate (split_1 file root))
               (map (fun rel => root +:+ rel) relative))
          = map (fun rel => VStr ("." +:+ rel)) relative) as ->;
    [| reflexivity].
  clear - Hroot Hfresh.
  induction Hfresh as [| rel relative Hrel _ IH]; [reflexivity |].
  cbn [map]. rewrite IH, (split_1_under_root root rel Hroot), Hrel.
  reflexivity.
Qed.

Lemma loadFiles_posts_paths_under_root_witness :
  calls (trace (run Memory.host FlatConfigEditor.loadFiles
                  Scenario.existingFlatYml))
  = [Glob ["/repo/**/*"; "!/repo/.git"; "!/repo/.vscode"; "!/repo/**/node_modules"]
       true;
     PostMessage (VObj [("command", VStr "updateFiles");
                        ("files", VArr [VStr "./.github/workflows/flat.yml"])])].
Proof.
  refine (loadFiles_posts_paths_under_root Memory.host
            Scenario.existingFlatYml Memory.root []
            ["/.github/workflows/flat.yml"] eq_refl _ _ eq_refl).
  - discriminate.
  - repeat constructor.
Defined.
